(** * Fermi_Tools: SED/run_SED_fit.py

    A shallow embedding of the SED fit driver.  The script is sequential
    glue around an external likelihood engine (fermipy's GTAnalysis):
    it prepares the data directory, resolves a time window, merges run
    arguments onto a YAML template and then issues a fixed sequence of
    engine calls.

    Modelling choices.
    - Python floats are exact rationals ([Q]); the conversions between
      MJD and MET are the arithmetic expressions of the source, and so is
      [np.arange].  Statements about them are statements of exact
      arithmetic; where one is meant to hold of the binary64 computation
      as well, it is stated for inputs on which that computation is
      exact, or it is a property that rounding preserves.
    - The data directory is a finite map from file names to files; the
      listing [os.listdir] is an arrangement of its keys, in an order
      that the host chooses.
    - Paths outside the data directory are identified by their strings.
      Of the ways in which the filesystem can refuse a write, the model
      has those that show in its state: the output folder exists, but
      as a regular file, or a directory stands where the file is to be
      written.  The creation of a directory is not refused.
    - The configuration document is a two-level mapping (section, key).
    - The engine is a collaborator that is only observed: every call is
      appended to a log, and the host decides whether the call raises.
      The files of the model are those that the script itself writes;
      what the engine writes when asked to is not represented.
    - What the interpreter and numpy contribute beyond exact arithmetic
      ([np.log10] on positive arguments, the rendering of floats, the
      order of a directory listing) is a parameter, the [Host].
    - Effects are threaded through a state-and-exception monad over the
      [world]; an exception leaves the effects performed so far in place.
    - Diagnostic [print] output is not part of the model. *)

From Stdlib Require Import Ascii QArith Qround Qfield Lia Lqa.
From stdpp Require Import gmap strings list fin_maps pretty sorting.

Open Scope Q_scope.

(** ** Python values and exceptions *)

Inductive exn :=
| Exception (msg : string)          (* [raise Exception(msg)] in the script *)
| ValueError (msg : string)
| KeyError (key : string)
| IndexError
| IOError (path : string)
| NameError (name : string)
| AttributeError
| EngineError.

Inductive result (A : Type) :=
| Ok (a : A)
| Raise (e : exn).
Arguments Ok {A} a.
Arguments Raise {A} e.

(** The script itself contains a single [raise] statement; every other
    exception comes out of a library call. *)
Definition raised_locally (e : exn) : bool :=
  match e with Exception _ => true | _ => false end.

Inductive pyval :=
| PStr (s : string)
| PInt (z : Z)
| PFloat (q : Q).

(** ** String and path operations *)

Module PyStr.

(** [needle in hay] *)
Fixpoint contains (needle hay : string) : bool :=
  if String.prefix needle hay then true
  else match hay with
       | EmptyString => false
       | String _ rest => contains needle rest
       end.

(** [s.replace(old, new)] for one-character [old] and [new] *)
Fixpoint replace (old new : ascii) (s : string) : string :=
  match s with
  | EmptyString => EmptyString
  | String c rest =>
      String (if Ascii.eqb c old then new else c) (replace old new rest)
  end.

(** [s.split(sep)] for a one-character separator *)
Fixpoint split (sep : ascii) (s : string) : list string :=
  match s with
  | EmptyString => [EmptyString]
  | String c rest =>
      if Ascii.eqb c sep then EmptyString :: split sep rest
      else match split sep rest with
           | h :: t => String c h :: t
           | [] => [String c EmptyString]
           end
  end.

Fixpoint endswith_char (s : string) (c : ascii) : bool :=
  match s with
  | EmptyString => false
  | String d EmptyString => Ascii.eqb d c
  | String _ rest => endswith_char rest c
  end.

Definition startswith_char (s : string) (c : ascii) : bool :=
  match s with
  | String d _ => Ascii.eqb d c
  | EmptyString => false
  end.

Definition newline : string := String (ascii_of_nat 10) EmptyString.

(** [sep.join(l)] *)
Definition join (sep : string) (l : list string) : string :=
  String.concat sep l.

End PyStr.

Definition slash : ascii := "/"%char.

(** [os.path.join(a, b)] on a POSIX system *)
Definition os_path_join (a b : string) : string :=
  if PyStr.startswith_char b slash then b
  else if (String.eqb a "" || PyStr.endswith_char a slash)%bool then a +:+ b
  else a +:+ "/" +:+ b.

(** [p.split('/')[-1]] *)
Definition split_last (p : string) : result string :=
  match last (PyStr.split slash p) with
  | Some b => Ok b
  | None => Raise IndexError
  end.

(** [int(x)] truncates towards zero. *)
Definition py_int (x : Q) : Z := Z.quot (Qnum x) (Z.pos (Qden x)).

(** ** [str.format] with automatically numbered fields *)

Inductive fmt_spec :=
| FDefault                (* [{}]      *)
| FFixed (prec : nat).    (* [{:.Nf}]  *)

Inductive fmt_piece :=
| Lit (s : string)
| Field (spec : fmt_spec).

Section Format.
(** Rendering of floats is the interpreter's business. *)
Variable float_repr : Q -> string.
Variable float_fixed : nat -> Q -> string.

Definition format_value (spec : fmt_spec) (v : pyval) : result string :=
  match spec, v with
  | FDefault, PStr s => Ok s
  | FDefault, PInt z => Ok (pretty z)
  | FDefault, PFloat q => Ok (float_repr q)
  | FFixed _, PStr _ =>
      Raise (ValueError "Unknown format code 'f' for object of type 'str'")
  | FFixed p, PInt z => Ok (float_fixed p (inject_Z z))
  | FFixed p, PFloat q => Ok (float_fixed p q)
  end.

(** Fields are filled left to right; surplus arguments are ignored. *)
Fixpoint py_format (fmt : list fmt_piece) (args : list pyval) : result string :=
  match fmt with
  | [] => Ok EmptyString
  | Lit s :: fmt' =>
      match py_format fmt' args with
      | Ok r => Ok (s +:+ r)
      | Raise e => Raise e
      end
  | Field spec :: fmt' =>
      match args with
      | [] => Raise IndexError
      | v :: args' =>
          match format_value spec v with
          | Raise e => Raise e
          | Ok s =>
              match py_format fmt' args' with
              | Ok r => Ok (s +:+ r)
              | Raise e => Raise e
              end
          end
      end
  end.
End Format.

(** ** Time conversions *)

Definition MJDREF : Q := 51910.0 + 7.428703703703703E-4.

Definition MJD_to_MET (mjd_time : Q) : Q := (mjd_time - MJDREF) * 86400.

Definition MET_to_MJD (met_time : Q) : Q := met_time / 86400 + MJDREF.

(** ** numpy helpers *)

(** [np.arange(start, stop, step)] for a positive step and finite
    bounds: the values [start + i*step] for
    [0 <= i < ceil((stop - start)/step)]. *)
Definition np_arange (start stop step : Q) : list Q :=
  map (fun i : nat => start + inject_Z (Z.of_nat i) * step)
      (seq 0 (Z.to_nat (Qceiling ((stop - start) / step)))).

(** The sign of a float, which decides whether its logarithm is finite. *)
Definition positive (x : Q) : bool := negb (Qle_bool x 0).
Definition negative (x : Q) : bool := negb (Qle_bool 0 x).

Definition np_min (l : list Q) : result Q :=
  match l with
  | [] => Raise (ValueError "zero-size array to reduction operation minimum which has no identity")
  | x :: xs => Ok (fold_left (fun m y => if Qle_bool m y then m else y) xs x)
  end.

Definition np_max (l : list Q) : result Q :=
  match l with
  | [] => Raise (ValueError "zero-size array to reduction operation maximum which has no identity")
  | x :: xs => Ok (fold_left (fun m y => if Qle_bool y m then m else y) xs x)
  end.

(** ** The world the script runs in *)

Inductive file :=
| FitsFile (hdus : list (gmap string Q))   (* one header per HDU *)
| PlainFile (content : string).

#[local] Set Warnings "-register-all".
Inductive value :=
| VNull
| VBool (b : bool)
| VNum (q : Q)
| VStr (s : string)
| VList (l : list value).

(** A configuration document: section name, then key. *)
Abbreviation config := (gmap string (gmap string value)).

(** What [default.yaml] next to the script holds. *)
Inductive template_file :=
| TemplateAbsent
| TemplateMalformed
| Template (c : config).

(** Calls into the analysis engine, with the arguments the script passes.
    [gta_free_source name pars free] fills in the engine's defaults
    [pars=None] and [free=True] where the script leaves them out. *)
Inductive engine_call :=
| GTAnalysis (config_path : string) (verbosity : Z)
| gta_setup
| gta_free_sources (distance : Q) (minmax_ts : option Q * option Q)
                   (exclude : list string)
| gta_free_source (name : string) (pars : option string) (free : bool)
| gta_set_parameter (name par : string) (val : Q)
| gta_optimize
| gta_fit (retries : Z)
| gta_write_roi (outfile : string)
| gta_bowtie (name : string)
| gta_sed (name outfile : string) (loge_bins : list Q)
          (free_pars : option string) (free_radius : option Q).

Inductive artifact :=
| ConfigYaml (c : config)      (* [yaml.dump(config, stream)] *)
| BowtieNpy (name : string).   (* [np.save] of [gta.bowtie(name)] *)

Record world := World {
  data_dir : gmap string file;          (* the directory [data_path] *)
  default_yaml : template_file;
  fs_dirs : gset string;                (* directories outside [data_path] *)
  fs_files : gmap string artifact;      (* files the script writes itself *)
  engine_log : list engine_call
}.

Definition set_data_dir (d : gmap string file) (w : world) : world :=
  World d (default_yaml w) (fs_dirs w) (fs_files w) (engine_log w).
Definition add_dir (p : string) (w : world) : world :=
  World (data_dir w) (default_yaml w) ({[p]} ∪ fs_dirs w) (fs_files w)
        (engine_log w).
Definition write_file (p : string) (a : artifact) (w : world) : world :=
  World (data_dir w) (default_yaml w) (fs_dirs w) (<[p := a]> (fs_files w))
        (engine_log w).
Definition log_call (c : engine_call) (w : world) : world :=
  World (data_dir w) (default_yaml w) (fs_dirs w) (fs_files w)
        (engine_log w ++ [c]).

(** The run arguments, as [parseArguments] hands them over. *)
Record Args := {
  target_src : string;
  emin : Q;
  emax : Q;
  time_range : option (Q * Q);
  data_path : string;
  outfolder : option string;
  xml_path : option string;
  use_3FGL : bool;
  free_radius : option Q;
  free_sources : option (list string);
  src_gamma : option Q;
  free_norm : bool;
  free_diff : bool;
  retries : Z;
  no_sed : bool
}.

(** What the script takes from the host it runs on. *)
Class Host := {
  this_path : string;                   (* the directory the script lives in *)
  (* the order in which [os.listdir] gives the names of a directory *)
  listdir_order : gmap string file -> list string;
  listdir_perm : forall d, listdir_order d ≡ₚ (map_to_list d).*1;
  np_log10 : Q -> Q;                    (* on a positive argument *)
  float_repr : Q -> string;             (* [repr] of a float *)
  float_fixed : nat -> Q -> string;     (* a float under [{:.Nf}] *)
  (* whether an engine call returns, given the calls made before it *)
  engine_ok : list engine_call -> engine_call -> bool
}.

(** ** State and exceptions *)

Definition M (A : Type) : Type := world -> result A * world.

Definition ret {A} (a : A) : M A := fun w => (Ok a, w).
Definition throw {A} (e : exn) : M A := fun w => (Raise e, w).
Definition bind {A B} (m : M A) (k : A -> M B) : M B :=
  fun w => match m w with
           | (Ok a, w') => k a w'
           | (Raise e, w') => (Raise e, w')
           end.
Definition lift {A} (r : result A) : M A := fun w => (r, w).
Definition gets {A} (f : world -> A) : M A := fun w => (Ok (f w), w).
Definition modify (f : world -> world) : M unit := fun w => (Ok tt, f w).

Notation "x <- m ;; k" := (bind m (fun x => k))
  (at level 100, m at next level, right associativity).
Notation "m ;; k" := (bind m (fun _ => k))
  (at level 100, right associativity).

Fixpoint for_each {A} (l : list A) (body : A -> M unit) : M unit :=
  match l with
  | [] => ret tt
  | x :: rest => body x ;; for_each rest body
  end.

(** ** Filesystem primitives *)

Definition os_listdir {rt : Host} (w : world) : list string :=
  listdir_order (data_dir w).

Definition os_rename (old new : string) : M unit :=
  fun w => match data_dir w !! old with
           | Some x => (Ok tt, set_data_dir (<[new := x]> (delete old (data_dir w))) w)
           | None => (Raise (IOError old), w)
           end.

Definition write_data_file (name : string) (content : string) : M unit :=
  modify (fun w => set_data_dir (<[name := PlainFile content]> (data_dir w)) w).

Definition os_path_exists (p : string) (w : world) : bool :=
  bool_decide (p ∈ fs_dirs w) || bool_decide (is_Some (fs_files w !! p)).

(** Writing the file [name] of [folder], as [open(path, 'w+')] and
    [np.save(path, ...)] do for [path = os.path.join(folder, name)]: the
    folder has to be a directory, and the path must not be one. *)
Definition write_into (folder name : string) (a : artifact) : M unit :=
  fun w => if bool_decide (folder ∈ fs_dirs w)
              && negb (bool_decide (os_path_join folder name ∈ fs_dirs w))
           then (Ok tt, write_file (os_path_join folder name) a w)
           else (Raise (IOError (os_path_join folder name)), w).

Definition fits_open (folder f : string) : M (list (gmap string Q)) :=
  fun w => match data_dir w !! f with
           | Some (FitsFile hdus) => (Ok hdus, w)
           | _ => (Raise (IOError (os_path_join folder f)), w)
           end.

(** [x[i].header[key]] *)
Definition hdu_header (x : list (gmap string Q)) (i : nat) (key : string) : M Q :=
  match x !! i with
  | None => throw IndexError
  | Some h => match h !! key with
              | Some v => ret v
              | None => throw (KeyError key)
              end
  end.

(** ** File Preparer *)

Definition setup_data_files {rt : Host} (folder : string) : M unit :=
  files <- gets os_listdir ;;
  (if bool_decide ("events.txt" ∈ files) then ret tt
   else
     let ph_files := map (os_path_join folder)
                         (List.filter (PyStr.contains "PH") files) in
     write_data_file "events.txt" (PyStr.join PyStr.newline ph_files)) ;;
  if bool_decide ("spacecraft.fits" ∈ files) then ret tt
  else
    let sc_files := List.filter (PyStr.contains "SC") files in
    if (length sc_files =? 1)%nat then
      match sc_files !! 0%nat with
      | Some f => os_rename f "spacecraft.fits"
      | None => throw IndexError
      end
    else throw (Exception "No Spacecraft File Available!").

(** ** Time Window Resolver *)

Fixpoint scan_headers (folder : string) (files : list string)
    (tmin tmax : list Q) : M (list Q * list Q) :=
  match files with
  | [] => ret (tmin, tmax)
  | f :: rest =>
      x <- fits_open folder f ;;
      a <- hdu_header x 1 "TSTART" ;;
      b <- hdu_header x 1 "TSTOP" ;;
      scan_headers folder rest (tmin ++ [a]) (tmax ++ [b])
  end.

Definition get_time_window {rt : Host} (folder : string) : M (Q * Q) :=
  files <- gets os_listdir ;;
  let files := List.filter (PyStr.contains "PH") files in
  t <- scan_headers folder files [] [] ;;
  lo <- lift (np_min t.1) ;;
  hi <- lift (np_max t.2) ;;
  ret (lo, hi).

(** ** Configuration document access *)

(** [config[sec][key]] *)
Definition cfg_get (c : config) (sec key : string) : result value :=
  match c !! sec with
  | None => Raise (KeyError sec)
  | Some s => match s !! key with
              | None => Raise (KeyError key)
              | Some v => Ok v
              end
  end.

(** [config[sec][key] = v] *)
Definition cfg_set (c : config) (sec key : string) (v : value) : result config :=
  match c !! sec with
  | None => Raise (KeyError sec)
  | Some s => Ok (<[sec := <[key := v]> s]> c)
  end.

(** [config[sec][key].append(v)] *)
Definition cfg_append (c : config) (sec key : string) (v : value) : result config :=
  match cfg_get c sec key with
  | Raise e => Raise e
  | Ok (VList l) => cfg_set c sec key (VList (l ++ [v]))
  | Ok _ => Raise AttributeError
  end.

(** The receiver of [.split] has to be a string. *)
Definition as_str (v : value) : result string :=
  match v with
  | VStr s => Ok s
  | _ => Raise AttributeError
  end.

(** ** The driver *)

Section Script.
Context {rt : Host}.

Definition format (fmt : list fmt_piece) (args : list pyval) : M string :=
  lift (py_format float_repr float_fixed fmt args).

(** A call of the engine: it is recorded, and it returns or raises as
    the host decides.  The files the engine writes when asked to
    ([write_roi], [sed]) are not files of the model. *)
Definition engine (c : engine_call) : M unit :=
  fun w => if engine_ok (engine_log w) c then (Ok tt, log_call c w)
           else (Raise EngineError, log_call c w).

Definition os_makedirs (p : string) : M unit := modify (add_dir p).

Definition np_save (folder name : string) (a : artifact) : M unit :=
  write_into folder name a.

(** [open(default.yaml)] followed by [yaml.load]; a YAML error is
    printed and leaves [config] unbound. *)
Definition load_template : M config :=
  fun w => match default_yaml w with
           | TemplateAbsent =>
               (Raise (IOError (os_path_join this_path "default.yaml")), w)
           | TemplateMalformed => (Raise (NameError "config"), w)
           | Template c => (Ok c, w)
           end.

(** ['{:.0f}_{:.0f}/{}_{}/'] *)
Definition basepath_fmt : list fmt_piece :=
  [Field (FFixed 0); Lit "_"; Field (FFixed 0); Lit "/";
   Field FDefault; Lit "_"; Field FDefault; Lit "/"].

Definition emin_emax_fmt (prefix suffix : string) : list fmt_piece :=
  [Lit prefix; Field FDefault; Lit "_emax_"; Field FDefault; Lit suffix].

(** Lines 59-65: the user's MJD range, or the coverage of the data. *)
Definition time_window (args : Args) : M (Q * Q) :=
  match time_range args with
  | Some (t0, t1) => ret (MJD_to_MET t0, MJD_to_MET t1)
  | None => get_time_window (data_path args)
  end.

(** Lines 70-75: the output folder when none is given. *)
Definition default_basepath (args : Args) (tmin tmax : Q) : M string :=
  b <- format basepath_fmt
         [PStr (target_src args);
          PFloat (MET_to_MJD tmin); PFloat (MET_to_MJD tmax);
          PInt (py_int (emin args)); PInt (py_int (emax args))] ;;
  ret (os_path_join this_path b).

(** Lines 83-103: Create Config File; [config.yaml] goes into
    [basepath]. *)
Definition create_config (args : Args) (src : string) (tmin tmax : Q)
    (basepath : string) : M unit :=
  config <- load_template ;;
  config <- lift (cfg_set config "selection" "emin" (VNum (emin args))) ;;
  config <- lift (cfg_set config "selection" "emax" (VNum (emax args))) ;;
  config <- lift (cfg_set config "selection" "tmin" (VNum tmin)) ;;
  config <- lift (cfg_set config "selection" "tmax" (VNum tmax)) ;;
  config <- lift (cfg_set config "selection" "target" (VStr src)) ;;
  ev <- lift (cfg_get config "data" "evfile") ;;
  ev <- lift (as_str ev) ;;
  ev <- lift (split_last ev) ;;
  config <- lift (cfg_set config "data" "evfile"
                    (VStr (os_path_join (data_path args) ev))) ;;
  sc <- lift (cfg_get config "data" "scfile") ;;
  sc <- lift (as_str sc) ;;
  sc <- lift (split_last sc) ;;
  config <- lift (cfg_set config "data" "scfile"
                    (VStr (os_path_join (data_path args) sc))) ;;
  config <- lift (cfg_set config "model" "catalogs" (VList [])) ;;
  config <- match xml_path args with
            | Some x =>
                s <- format [Field FDefault] [PStr x] ;;
                lift (cfg_append config "model" "catalogs" (VStr s))
            | None => ret config
            end ;;
  config <- (if use_3FGL args
             then lift (cfg_append config "model" "catalogs" (VStr "3FGL"))
             else ret config) ;;
  write_into basepath "config.yaml" (ConfigYaml config).

(** Lines 111-119: free the neighbours, by radius or by name. *)
Definition free_other_sources (args : Args) : M unit :=
  match free_radius args with
  | Some r =>
      engine (gta_free_sources r (Some 2, None) ["isodiff"; "galdiff"])
  | None =>
      match free_sources args with
      | Some keys =>
          for_each keys
            (fun src_key => engine (gta_free_source src_key None true))
      | None => ret tt
      end
  end.

(** Lines 121-130: Configure Target Source; returns [free_pars]. *)
Definition configure_target (args : Args) (src : string) : M (option string) :=
  match src_gamma args with
  | Some g =>
      engine (gta_set_parameter src "Index" g) ;;
      ret (Some "norm")
  | None =>
      if free_norm args then ret (Some "norm")
      else (engine gta_optimize ;; ret None)
  end.

(** Lines 155-156, for bounds with a finite logarithm *)
Definition loge_bins (emin emax : Q) : list Q :=
  np_arange (np_log10 emin) (np_log10 emax) 0.5.

(** Lines 155-156.  [np.log10] gives [-inf] at 0 and [nan] below, and
    [np.arange] raises when it cannot compute a length from its bounds:
    on a [nan], and on an infinite quotient. *)
Definition sed_bins (emin emax : Q) : result (list Q) :=
  if positive emin && positive emax then Ok (loge_bins emin emax)
  else if negative emin || negative emax
          || (Qeq_bool emin 0 && Qeq_bool emax 0)
       then Raise (ValueError "arange: cannot compute length")
       else Raise (ValueError "Maximum allowed size exceeded").

(** Lines 105-158: Run Analysis, with the configuration in [basepath]. *)
Definition run_analysis (args : Args) (src basepath : string) : M unit :=
  let emin := emin args in
  let emax := emax args in
  engine (GTAnalysis (os_path_join basepath "config.yaml") 3) ;;
  engine gta_setup ;;
  free_other_sources args ;;
  free_pars <- configure_target args src ;;
  engine (gta_free_source src None false) ;;
  engine (gta_free_source src free_pars true) ;;
  (if free_diff args then
     engine (gta_free_source "galdiff" (Some "norm") true) ;;
     engine (gta_free_source "isodiff" (Some "norm") true)
   else ret tt) ;;
  engine (gta_fit (retries args)) ;;
  roi <- format (emin_emax_fmt "llh_emin_" ".npy")
           [PInt (py_int emin); PInt (py_int emax)] ;;
  engine (gta_write_roi roi) ;;
  engine (gta_bowtie src) ;;
  bow <- format (emin_emax_fmt "bowtie_emin_" ".npy")
           [PInt (py_int emin); PInt (py_int emax)] ;;
  np_save basepath bow (BowtieNpy src) ;;
  if no_sed args then ret tt
  else
    ofile <- format (emin_emax_fmt "sed_emin_" ".fits")
               [PInt (py_int emin); PInt (py_int emax)] ;;
    bins <- lift (sed_bins emin emax) ;;
    engine (gta_sed src ofile bins free_pars (free_radius args)).

Definition run_fit (args : Args) : M unit :=
  let src := PyStr.replace "_" " " (target_src args) in
  t <- time_window args ;;
  let tmin := t.1 in
  let tmax := t.2 in
  basepath <- match outfolder args with
              | Some o => ret o
              | None => default_basepath args tmin tmax
              end ;;
  setup_data_files (data_path args) ;;
  ex <- gets (os_path_exists basepath) ;;
  (if ex then ret tt else os_makedirs basepath) ;;
  create_config args src tmin tmax basepath ;;
  run_analysis args src basepath.

End Script.

(** ** Vocabulary of the properties *)

(** [config[sec][key]] as a partial lookup. *)
Definition cfg_lookup (c : config) (sec key : string) : option value :=
  c !! sec ≫= (fun s => s !! key).

(** The header keyword [key] of HDU 1 of the file [f], when it can be read. *)
Definition fits_header (w : world) (f key : string) : option Q :=
  match data_dir w !! f with
  | Some (FitsFile hdus) => hdus !! 1%nat ≫= (fun h => h !! key)
  | _ => None
  end.

(** The raw event files and the spacecraft candidates of the data
    directory, in the order of its listing. *)
Definition ph_files {rt : Host} (w : world) : list string :=
  List.filter (PyStr.contains "PH") (os_listdir w).
Definition sc_files {rt : Host} (w : world) : list string :=
  List.filter (PyStr.contains "SC") (os_listdir w).

(** Appending a batch of calls to the engine log. *)
Definition log_calls (cs : list engine_call) (w : world) : world :=
  World (data_dir w) (default_yaml w) (fs_dirs w) (fs_files w)
        (engine_log w ++ cs).

(** The same arguments under another target name. *)
Definition with_target (t : string) (a : Args) : Args :=
  {| target_src := t; emin := emin a; emax := emax a;
     time_range := time_range a; data_path := data_path a;
     outfolder := outfolder a; xml_path := xml_path a;
     use_3FGL := use_3FGL a; free_radius := free_radius a;
     free_sources := free_sources a; src_gamma := src_gamma a;
     free_norm := free_norm a; free_diff := free_diff a;
     retries := retries a; no_sed := no_sed a |}.

(** The same arguments under another explicit free-source list. *)
Definition with_free_sources (l : option (list string)) (a : Args) : Args :=
  {| target_src := target_src a; emin := emin a; emax := emax a;
     time_range := time_range a; data_path := data_path a;
     outfolder := outfolder a; xml_path := xml_path a;
     use_3FGL := use_3FGL a; free_radius := free_radius a;
     free_sources := l; src_gamma := src_gamma a;
     free_norm := free_norm a; free_diff := free_diff a;
     retries := retries a; no_sed := no_sed a |}.

(** The catalog list the script assembles. *)
Definition catalogs_of (a : Args) : list value :=
  match xml_path a with Some x => [VStr x] | None => [] end
  ++ (if use_3FGL a then [VStr "3FGL"] else []).

(** The fields of the template the script assigns. *)
Definition overridden : list (string * string) :=
  [("selection", "emin"); ("selection", "emax"); ("selection", "tmin");
   ("selection", "tmax"); ("selection", "target");
   ("data", "evfile"); ("data", "scfile"); ("model", "catalogs")].

(** Engine calls issued by the neighbour-freeing step. *)
Definition freeing_calls (a : Args) : list engine_call :=
  match free_radius a with
  | Some r => [gta_free_sources r (Some 2, None) ["isodiff"; "galdiff"]]
  | None =>
      match free_sources a with
      | Some keys => map (fun k => gta_free_source k None true) keys
      | None => []
      end
  end.

(** The value of [free_pars] after the target has been configured. *)
Definition free_pars_of (a : Args) : option string :=
  match src_gamma a with
  | Some _ => Some "norm"
  | None => if free_norm a then Some "norm" else None
  end.

(** Engine calls issued while the target is configured and re-freed. *)
Definition target_calls (a : Args) (src : string) : list engine_call :=
  match src_gamma a with
  | Some g => [gta_set_parameter src "Index" g]
  | None => if free_norm a then [] else [gta_optimize]
  end
  ++ [gta_free_source src None false;
      gta_free_source src (free_pars_of a) true].

Definition diffuse_calls (a : Args) : list engine_call :=
  if free_diff a
  then [gta_free_source "galdiff" (Some "norm") true;
        gta_free_source "isodiff" (Some "norm") true]
  else [].

(** ['<prefix>{}_emax_{}<suffix>'.format(int(emin), int(emax))] *)
Definition artifact_name (prefix suffix : string) (a : Args) : string :=
  prefix +:+ pretty (py_int (emin a)) +:+ "_emax_"
         +:+ pretty (py_int (emax a)) +:+ suffix.

(** One assignment [config[sec][key] = v], seen through lookups. *)
Definition cfg_step (c c' : config) (sec key : string) (v : value) : Prop :=
  cfg_lookup c' sec key = Some v
  /\ (forall s k, s <> sec \/ k <> key -> cfg_lookup c' s k = cfg_lookup c s k)
  /\ dom c' = dom c.

(** The source a call is addressed to is the target [src], or one of
    the [others] where the call frees a neighbour. *)
Definition addresses (src : string) (others : list string)
    (c : engine_call) : Prop :=
  match c with
  | gta_set_parameter n _ _ => n = src
  | gta_bowtie n => n = src
  | gta_sed n _ _ _ _ => n = src
  | gta_free_source n _ _ => n = src \/ In n others
  | _ => True
  end.

(** Calls that belong to the configuration of the target alone. *)
Definition configures (c : engine_call) : bool :=
  match c with
  | gta_optimize => true
  | gta_set_parameter _ _ _ => true
  | _ => false
  end.

(** The three outcomes of the target configuration, as engine calls. *)
Definition target_protocol (a : Args) (src : string) : list engine_call :=
  match src_gamma a with
  | Some g =>
      [gta_set_parameter src "Index" g;
       gta_free_source src None false;
       gta_free_source src (Some "norm") true]
  | None =>
      if free_norm a
      then [gta_free_source src None false;
            gta_free_source src (Some "norm") true]
      else [gta_optimize;
            gta_free_source src None false;
            gta_free_source src None true]
  end.

(** What it means for [cfg] to be the template [tmpl] with the run's
    fields merged in. *)
Definition merged (a : Args) (src : string) (tmin tmax : Q)
    (tmpl cfg : config) : Prop :=
  exists ev sc evb scb,
    cfg_lookup tmpl "data" "evfile" = Some (VStr ev)
    /\ last (PyStr.split slash ev) = Some evb
    /\ cfg_lookup tmpl "data" "scfile" = Some (VStr sc)
    /\ last (PyStr.split slash sc) = Some scb
    /\ cfg_lookup cfg "selection" "emin" = Some (VNum (emin a))
    /\ cfg_lookup cfg "selection" "emax" = Some (VNum (emax a))
    /\ cfg_lookup cfg "selection" "tmin" = Some (VNum tmin)
    /\ cfg_lookup cfg "selection" "tmax" = Some (VNum tmax)
    /\ cfg_lookup cfg "selection" "target" = Some (VStr src)
    /\ cfg_lookup cfg "data" "evfile"
       = Some (VStr (os_path_join (data_path a) evb))
    /\ cfg_lookup cfg "data" "scfile"
       = Some (VStr (os_path_join (data_path a) scb))
    /\ cfg_lookup cfg "model" "catalogs" = Some (VList (catalogs_of a))
    /\ (forall s k, (s, k) ∉ overridden ->
          cfg_lookup cfg s k = cfg_lookup tmpl s k)
    /\ dom cfg = dom tmpl.

(** A computation that only reads the world. *)
Definition reads_only {A} (m : M A) : Prop := forall w, (m w).2 = w.

(** A computation all of whose exceptions come out of library calls. *)
Definition lib_errors {A} (m : M A) : Prop :=
  forall w e w', m w = (Raise e, w') -> raised_locally e = false.

(** ** A concrete run: the Crab Nebula scenario *)

Module Crab.

Definition photon_hdr (a b : Q) : list (gmap string Q) :=
  [∅; {[ "TSTART" := a; "TSTOP" := b ]}].

Definition dir : gmap string file :=
  {[ "L1_PH00.fits" := FitsFile (photon_hdr 239557417 255398400);
     "L1_PH01.fits" := FitsFile (photon_hdr 255398400 271123200);
     "L1_SC00.fits" := FitsFile [∅] ]}.

Definition template : config :=
  {[ "selection" := {[ "emin" := VNum 1000; "emax" := VNum 500000;
                       "target" := VNull; "zmax" := VNum 90;
                       "evclass" := VNum 128 ]};
     "data" := {[ "evfile" := VStr "/old/place/events.txt";
                  "scfile" := VStr "/old/place/spacecraft.fits";
                  "ltcube" := VNull ]};
     "model" := {[ "catalogs" := VList [VStr "stale.xml"];
                   "src_roiwidth" := VNum 15 ]};
     "binning" := {[ "roiwidth" := VNum 10; "binsz" := VNum 0.1 ]} ]}.

Definition w0 : world :=
  World dir (Template template) ∅ ∅ [].

Definition args : Args :=
  {| target_src := "Crab_Nebula"; emin := 100; emax := 100000;
     time_range := Some (55000, 55010); data_path := "/data/crab";
     outfolder := Some "/out/crab"; xml_path := None; use_3FGL := false;
     free_radius := None; free_sources := None; src_gamma := None;
     free_norm := false; free_diff := false; retries := 5;
     no_sed := false |}.

(** A stand-in for [np.log10]: the integer part of the logarithm, which
    is exact on the powers of ten. *)
Fixpoint log10_nat (fuel : nat) (n : Z) : Z :=
  match fuel with
  | O => 0
  | S k => if (n <? 10)%Z then 0 else (1 + log10_nat k (n / 10))%Z
  end.
Definition log10 (x : Q) : Q :=
  inject_Z (log10_nat 64 (py_int x)).

(** Stand-ins for the rendering of floats (integral values only) and an
    engine none of whose calls raises. *)
Definition repr (x : Q) : string := pretty (py_int x) +:+ ".0".
Definition fixed (p : nat) (x : Q) : string := pretty (Qfloor (x + 0.5)).
Definition always_ok (log : list engine_call) (c : engine_call) : bool := true.

(** A directory listing in the order of the names. *)
Definition name_le (x y : string) : Prop := String.leb x y = true.
Definition name_le_dec (x y : string) : Decision (name_le x y) :=
  decide (String.leb x y = true).
Definition by_name (d : gmap string file) : list string :=
  @merge_sort string name_le name_le_dec (map_to_list d).*1.
Definition by_name_perm (d : gmap string file)
    : by_name d ≡ₚ (map_to_list d).*1 :=
  merge_sort_Permutation name_le _.

#[global] Instance host : Host :=
  {| this_path := "/opt/SED"; listdir_order := by_name;
     listdir_perm := by_name_perm; np_log10 := log10; float_repr := repr;
     float_fixed := fixed; engine_ok := always_ok |}.

Definition run (a : Args) : M unit := @run_fit host a.

(** The world a run from [w0] ends in. *)
Definition final (a : Args) : world := (run a w0).2.

(** The same run without an output folder. *)
Definition args_default_folder : Args :=
  {| target_src := "Crab_Nebula"; emin := 100; emax := 100000;
     time_range := Some (55000, 55010); data_path := "/data/crab";
     outfolder := None; xml_path := None; use_3FGL := false;
     free_radius := None; free_sources := None; src_gamma := None;
     free_norm := false; free_diff := false; retries := 5;
     no_sed := false |}.

(** No output folder and no time range, over an empty data directory. *)
Definition args_discover_default : Args :=
  {| target_src := "Crab_Nebula"; emin := 100; emax := 100000;
     time_range := None; data_path := "/data/empty";
     outfolder := None; xml_path := None; use_3FGL := false;
     free_radius := None; free_sources := None; src_gamma := None;
     free_norm := false; free_diff := false; retries := 5;
     no_sed := false |}.

Definition w_empty : world :=
  World ∅ (Template template) ∅ ∅ [].

(** The time window is left to the data. *)
Definition args_discover : Args :=
  {| target_src := "Crab_Nebula"; emin := 100; emax := 100000;
     time_range := None; data_path := "/data/crab";
     outfolder := Some "/out/crab"; xml_path := None; use_3FGL := false;
     free_radius := None; free_sources := None; src_gamma := None;
     free_norm := false; free_diff := false; retries := 5;
     no_sed := false |}.

(** A radius and a list of sources together, both catalogs, a fixed
    index and free diffuse components. *)
Definition args_radius : Args :=
  {| target_src := "Crab_Nebula"; emin := 100; emax := 100000;
     time_range := Some (55000, 55010); data_path := "/data/crab";
     outfolder := Some "/out/crab"; xml_path := Some "/cat/extra.xml";
     use_3FGL := true;
     free_radius := Some 3; free_sources := Some ["IC 443"; "Geminga"];
     src_gamma := Some 2.1;
     free_norm := false; free_diff := true; retries := 5;
     no_sed := true |}.

End Crab.

(** ** Vocabulary of the further properties *)

(** The calls an engine receives out of the calls a script intends,
    [log] being what it received before: the script stops at the first
    call that raises.  The flag tells whether every call returned. *)
Fixpoint replay {rt : Host} (log script : list engine_call)
    : list engine_call * bool :=
  match script with
  | [] => ([], true)
  | c :: rest =>
      if engine_ok log c
      then let r := replay (log ++ [c]) rest in (c :: r.1, r.2)
      else ([c], false)
  end.

(** The calls [run_fit] intends up to the bowtie, in the order of lines
    106-144, for the output folder [o]. *)
Definition fit_script (a : Args) (o : string) : list engine_call :=
  let src := PyStr.replace "_" " " (target_src a) in
  [GTAnalysis (os_path_join o "config.yaml") 3; gta_setup]
  ++ freeing_calls a
  ++ target_calls a src
  ++ diffuse_calls a
  ++ [gta_fit (retries a);
      gta_write_roi (artifact_name "llh_emin_" ".npy" a);
      gta_bowtie src].

(** The call of lines 154-158, on the bin edges [bins]. *)
Definition sed_call (a : Args) (bins : list Q) : engine_call :=
  gta_sed (PyStr.replace "_" " " (target_src a))
    (artifact_name "sed_emin_" ".fits" a) bins
    (free_pars_of a) (free_radius a).

(** A computation that issues the calls [cs] up to the first that
    raises, returns [a] when all of them return, raises [EngineError]
    otherwise, and does nothing else. *)
Definition issues {rt : Host} {A} (m : M A) (cs : list engine_call) (a : A)
    : Prop :=
  forall w,
    m w = (if (replay (engine_log w) cs).2 then Ok a else Raise EngineError,
           log_calls (replay (engine_log w) cs).1 w).

(** A computation that issues the calls [cs] in the same way and, when
    all of them return, goes on as [k]. *)
Definition issues_then {rt : Host} {A} (m : M A) (cs : list engine_call)
    (k : M A) : Prop :=
  forall w,
    m w = if (replay (engine_log w) cs).2 then k (log_calls cs w)
          else (Raise EngineError, log_calls (replay (engine_log w) cs).1 w).

(** What is left of the analysis once every call up to the bowtie has
    returned: lines 145-158. *)
Definition after_bowtie {rt : Host} (args : Args) (o : string) : M unit :=
  bow <- format (emin_emax_fmt "bowtie_emin_" ".npy")
           [PInt (py_int (emin args)); PInt (py_int (emax args))] ;;
  np_save o bow (BowtieNpy (PyStr.replace "_" " " (target_src args))) ;;
  if no_sed args then ret tt
  else
    ofile <- format (emin_emax_fmt "sed_emin_" ".fits")
               [PInt (py_int (emin args)); PInt (py_int (emax args))] ;;
    bins <- lift (sed_bins (emin args) (emax args)) ;;
    engine (gta_sed (PyStr.replace "_" " " (target_src args)) ofile bins
              (free_pars_of args) (free_radius args)).

(** The parameters of a source that [free_source] can address: its
    normalisation and the parameters of its spectral shape. *)
Inductive par_kind := NormPar | ShapePar.

(** The engine's reading of the [pars] argument of [free_source], as
    its documentation has it: [None] stands for every parameter of the
    source, which is the form under which line 119 frees a neighbour,
    ['norm'] for the normalisation and ['shape'] for the shape. *)
Definition addressed (pars : option string) (k : par_kind) : bool :=
  match pars, k with
  | None, _ => true
  | Some q, NormPar => String.eqb q "norm"
  | Some q, ShapePar => String.eqb q "shape"
  end.

(** The free flags of the parameters of a source after the call
    [free_source(name, pars, free)] on it, [flags] being those before:
    the call sets the flag of the parameters it addresses to [free]. *)
Definition free_source_flags (pars : option string) (free : bool)
    (flags : par_kind -> bool) : par_kind -> bool :=
  fun k => if addressed pars k then free else flags k.

(** A computation that leaves the world as it was when it raises. *)
Definition raise_keeps {A} (m : M A) : Prop :=
  forall w e w', m w = (Raise e, w') -> w' = w.

(** The world once the output folder [o] is there. *)
Definition with_folder (o : string) (w : world) : world :=
  if os_path_exists o w then w else add_dir o w.

(** The characters of a string. *)
Fixpoint has_char (c : ascii) (s : string) : bool :=
  match s with
  | EmptyString => false
  | String d rest => Ascii.eqb d c || has_char c rest
  end.

(** The data directory once [events.txt] is there: the list of the raw
    event files, one path per line, unless the file existed. *)
Definition events_dir {rt : Host} (folder : string) (w : world)
    : gmap string file :=
  if bool_decide ("events.txt" ∈ os_listdir w) then data_dir w
  else <["events.txt" :=
           PlainFile (PyStr.join PyStr.newline
                        (map (os_path_join folder) (ph_files w)))]>
         (data_dir w).

(** ** Further concrete runs *)

Module Cases.

(** A host like the one of the Crab scenario whose engine refuses the
    fit. *)
Definition fit_refused (log : list engine_call) (c : engine_call) : bool :=
  match c with
  | gta_fit _ => false
  | _ => true
  end.

Definition refusing : Host :=
  {| this_path := "/opt/SED"; listdir_order := Crab.by_name;
     listdir_perm := Crab.by_name_perm; np_log10 := Crab.log10;
     float_repr := Crab.repr; float_fixed := Crab.fixed;
     engine_ok := fit_refused |}.

(** Neighbours freed by name, the SED suppressed. *)
Definition args_by_name : Args :=
  {| target_src := "Crab_Nebula"; emin := 100; emax := 100000;
     time_range := Some (55000, 55010); data_path := "/data/crab";
     outfolder := Some "/out/crab"; xml_path := None; use_3FGL := true;
     free_radius := None; free_sources := Some ["IC 443"; "Geminga"];
     src_gamma := None; free_norm := true; free_diff := false;
     retries := 2; no_sed := true |}.

(** The Crab world without a template next to the script. *)
Definition w_no_template : world :=
  World Crab.dir TemplateAbsent ∅ ∅ [].

(** The Crab data directory once prepared. *)
Definition prepared : world :=
  (setup_data_files "/data/crab" Crab.w0).2.

End Cases.

(** * Properties *)

(** ** The library model on small inputs *)

Example contains_markers :
  PyStr.contains "PH" "L1_PH00.fits" = true
  /\ PyStr.contains "SC" "L1_SC00.fits" = true
  /\ PyStr.contains "SC" "spacecraft.fits" = false
  /\ PyStr.contains "PH" "events.txt" = false.
Proof. repeat split; reflexivity. Qed.

Example replace_underscores :
  PyStr.replace "_" " " "Crab_Nebula" = "Crab Nebula"
  /\ PyStr.replace "_" " " "PSR_B1259_63" = "PSR B1259 63".
Proof. split; reflexivity. Qed.

Example split_last_paths :
  split_last "/old/place/events.txt" = Ok "events.txt"
  /\ split_last "events.txt" = Ok "events.txt"
  /\ split_last "dir/" = Ok "".
Proof. repeat split; reflexivity. Qed.

Example os_path_join_cases :
  os_path_join "/data/crab" "events.txt" = "/data/crab/events.txt"
  /\ os_path_join "/data/crab/" "events.txt" = "/data/crab/events.txt"
  /\ os_path_join "" "events.txt" = "events.txt"
  /\ os_path_join "/data/crab" "/abs/events.txt" = "/abs/events.txt".
Proof. repeat split; reflexivity. Qed.

Example py_int_truncates :
  py_int 2.7 = 2%Z /\ py_int (-2.7) = (-2)%Z /\ py_int 100 = 100%Z.
Proof. repeat split; reflexivity. Qed.

Example np_arange_half_open :
  length (np_arange 2 5 0.5) = 6%nat
  /\ length (np_arange 2 4.7 0.5) = 6%nat
  /\ length (np_arange 2 5.1 0.5) = 7%nat.
Proof. repeat split; reflexivity. Qed.

Example format_roi_name :
  py_format Crab.repr Crab.fixed (emin_emax_fmt "llh_emin_" ".npy")
    [PInt 100; PInt 100000]
  = Ok "llh_emin_100_emax_100000.npy".
Proof. reflexivity. Qed.

Example format_str_as_float :
  py_format Crab.repr Crab.fixed basepath_fmt
    [PStr "Crab_Nebula"; PFloat 55000; PFloat 55010; PInt 100; PInt 100000]
  = Raise (ValueError "Unknown format code 'f' for object of type 'str'").
Proof. reflexivity. Qed.

Example crab_discovered_window :
  (get_time_window "/data/crab" Crab.w0).1 = Ok (239557417, 271123200).
Proof. vm_compute. reflexivity. Qed.

Example crab_radius_engine_log :
  engine_log (Crab.final Crab.args_radius)
  = [GTAnalysis "/out/crab/config.yaml" 3; gta_setup;
     gta_free_sources 3 (Some 2, None) ["isodiff"; "galdiff"];
     gta_set_parameter "Crab Nebula" "Index" 2.1;
     gta_free_source "Crab Nebula" None false;
     gta_free_source "Crab Nebula" (Some "norm") true;
     gta_free_source "galdiff" (Some "norm") true;
     gta_free_source "isodiff" (Some "norm") true;
     gta_fit 5;
     gta_write_roi "llh_emin_100_emax_100000.npy";
     gta_bowtie "Crab Nebula"].
Proof. vm_compute. reflexivity. Qed.

Example crab_prepared_directory :
  os_listdir (Crab.final Crab.args)
  = ["L1_PH00.fits"; "L1_PH01.fits"; "events.txt"; "spacecraft.fits"].
Proof. vm_compute. reflexivity. Qed.

(** ** Arithmetic of the conversions *)

Lemma MJDREF_value :
  MJDREF == 51910 + (7428703703703703 # 10000000000000000000).
Proof. vm_compute. reflexivity. Qed.

Lemma MJD_to_MET_linear (x : Q) : MJD_to_MET x == (x - MJDREF) * 86400.
Proof. reflexivity. Qed.

(** C4: converting an MJD value to MET and back gives the value again,
    exactly, over the rationals. *)
Theorem MET_to_MJD_MJD_to_MET (x : Q) : MET_to_MJD (MJD_to_MET x) == x.
Proof. unfold MET_to_MJD, MJD_to_MET. field. Qed.

(** ** numpy reductions *)

Lemma fold_min_spec (xs : list Q) (x : Q) :
  let m := fold_left (fun m y => if Qle_bool m y then m else y) xs x in
  In m (x :: xs) /\ forall y, In y (x :: xs) -> m <= y.
Proof.
  revert x. induction xs as [|z xs IH]; intros x; cbn [fold_left].
  - split; [now left|]. intros y [<-|[]]. apply Qle_refl.
  - destruct (Qle_bool x z) eqn:E.
    + destruct (IH x) as [Hin Hle]. split.
      * destruct Hin as [<-|Hin]; [now left | right; now right].
      * intros y [<-|[<-|Hy]].
        -- apply Hle; now left.
        -- apply Qle_trans with x; [apply Hle; now left|].
           now apply Qle_bool_iff.
        -- apply Hle; now right.
    + destruct (IH z) as [Hin Hle]. split.
      * right. exact Hin.
      * intros y [<-|[<-|Hy]].
        -- apply Qle_trans with z; [apply Hle; now left|].
           apply Qlt_le_weak, Qnot_le_lt. intros H.
           apply Qle_bool_iff in H. congruence.
        -- apply Hle; now left.
        -- apply Hle; now right.
Qed.

Lemma fold_max_spec (xs : list Q) (x : Q) :
  let m := fold_left (fun m y => if Qle_bool y m then m else y) xs x in
  In m (x :: xs) /\ forall y, In y (x :: xs) -> y <= m.
Proof.
  revert x. induction xs as [|z xs IH]; intros x; cbn [fold_left].
  - split; [now left|]. intros y [<-|[]]. apply Qle_refl.
  - destruct (Qle_bool z x) eqn:E.
    + destruct (IH x) as [Hin Hle]. split.
      * destruct Hin as [<-|Hin]; [now left | right; now right].
      * intros y [<-|[<-|Hy]].
        -- apply Hle; now left.
        -- apply Qle_trans with x; [|apply Hle; now left].
           now apply Qle_bool_iff.
        -- apply Hle; now right.
    + destruct (IH z) as [Hin Hle]. split.
      * right. exact Hin.
      * intros y [<-|[<-|Hy]].
        -- apply Qle_trans with z; [|apply Hle; now left].
           apply Qlt_le_weak, Qnot_le_lt. intros H.
           apply Qle_bool_iff in H. congruence.
        -- apply Hle; now left.
        -- apply Hle; now right.
Qed.

Lemma np_min_spec (l : list Q) :
  l <> [] -> exists m, np_min l = Ok m /\ In m l /\ forall y, In y l -> m <= y.
Proof.
  destruct l as [|x xs]; [congruence|]. intros _.
  eexists. split; [reflexivity|]. apply fold_min_spec.
Qed.

Lemma np_max_spec (l : list Q) :
  l <> [] -> exists m, np_max l = Ok m /\ In m l /\ forall y, In y l -> y <= m.
Proof.
  destruct l as [|x xs]; [congruence|]. intros _.
  eexists. split; [reflexivity|]. apply fold_max_spec.
Qed.

(** ** Stepping through the monad *)

Lemma bind_ok {A B} (m : M A) (k : A -> M B) w b w' :
  bind m k w = (Ok b, w') ->
  exists a w1, m w = (Ok a, w1) /\ k a w1 = (Ok b, w').
Proof.
  unfold bind. destruct (m w) as [[a|e] w1]; [eauto | discriminate].
Qed.

Lemma bind_raise {A B} (m : M A) (k : A -> M B) w e w' :
  bind m k w = (Raise e, w') ->
  m w = (Raise e, w') \/
  exists a w1, m w = (Ok a, w1) /\ k a w1 = (Raise e, w').
Proof.
  unfold bind. destruct (m w) as [[a|e0] w1]; [eauto | intros [= -> ->]; eauto].
Qed.

Lemma bind_step {A B} (m : M A) (k : A -> M B) w a w1 :
  m w = (Ok a, w1) -> bind m k w = k a w1.
Proof. unfold bind. now intros ->. Qed.

Lemma lift_ok {A} (r : result A) w a w' :
  lift r w = (Ok a, w') -> r = Ok a /\ w' = w.
Proof. unfold lift. now intros [= -> ->]. Qed.

Lemma reads_only_eq {A} (m : M A) w r w' :
  reads_only m -> m w = (r, w') -> w' = w.
Proof. intros H E. specialize (H w). rewrite E in H. exact H. Qed.

Lemma reads_only_bind {A B} (m : M A) (k : A -> M B) :
  reads_only m -> (forall a, reads_only (k a)) -> reads_only (bind m k).
Proof.
  intros Hm Hk w. unfold bind. destruct (m w) as [[a|e] w1] eqn:E.
  - apply reads_only_eq in E as ->; [apply Hk | exact Hm].
  - apply reads_only_eq in E as ->; [reflexivity | exact Hm].
Qed.

Lemma reads_only_ret {A} (a : A) : reads_only (ret a).
Proof. now intros w. Qed.
Lemma reads_only_throw {A} (e : exn) : reads_only (@throw A e).
Proof. now intros w. Qed.
Lemma reads_only_lift {A} (r : result A) : reads_only (lift r).
Proof. now intros w. Qed.
Lemma reads_only_gets {A} (f : world -> A) : reads_only (gets f).
Proof. now intros w. Qed.

Lemma reads_only_fits_open folder f : reads_only (fits_open folder f).
Proof.
  intros w. unfold fits_open.
  destruct (data_dir w !! f) as [[hdus|c]|]; reflexivity.
Qed.

Lemma reads_only_hdu_header x i key : reads_only (hdu_header x i key).
Proof.
  intros w. unfold hdu_header.
  destruct (x !! i) as [h|]; [destruct (h !! key)|]; reflexivity.
Qed.

Create HintDb reads.
#[local] Hint Resolve reads_only_ret reads_only_throw reads_only_lift
  reads_only_gets reads_only_fits_open reads_only_hdu_header : reads.

Lemma reads_only_scan folder files :
  forall tmin tmax, reads_only (scan_headers folder files tmin tmax).
Proof.
  induction files as [|f rest IH]; intros tmin tmax; cbn [scan_headers].
  - auto with reads.
  - repeat (apply reads_only_bind; [auto with reads | intros]). apply IH.
Qed.

Lemma reads_only_get_time_window {rt : Host} folder :
  reads_only (get_time_window folder).
Proof.
  unfold get_time_window.
  apply reads_only_bind; [auto with reads | intros files].
  apply reads_only_bind; [apply reads_only_scan | intros t].
  repeat (apply reads_only_bind; [auto with reads | intros]).
  auto with reads.
Qed.

(** ** Exceptions that come out of library calls *)

Lemma lib_errors_bind {A B} (m : M A) (k : A -> M B) :
  lib_errors m -> (forall a, lib_errors (k a)) -> lib_errors (bind m k).
Proof.
  intros Hm Hk w e w' H.
  apply bind_raise in H as [H | (a & w1 & _ & H)].
  - eapply Hm, H.
  - eapply Hk, H.
Qed.

Lemma lib_errors_ret {A} (a : A) : lib_errors (ret a).
Proof. intros w e w'; discriminate. Qed.
Lemma lib_errors_gets {A} (f : world -> A) : lib_errors (gets f).
Proof. intros w e w'; discriminate. Qed.
Lemma lib_errors_modify f : lib_errors (modify f).
Proof. intros w e w'; discriminate. Qed.

Lemma lib_errors_lift {A} (r : result A) :
  (forall e, r = Raise e -> raised_locally e = false) -> lib_errors (lift r).
Proof. intros H w e w'. unfold lift. intros [= -> _]. now apply H. Qed.

Lemma lib_errors_fits_open folder f : lib_errors (fits_open folder f).
Proof.
  intros w e w'. unfold fits_open.
  destruct (data_dir w !! f) as [[hdus|c]|]; now intros [= <- _].
Qed.

Lemma lib_errors_hdu_header x i key : lib_errors (hdu_header x i key).
Proof.
  intros w e w'. unfold hdu_header, throw, ret.
  destruct (x !! i) as [h|]; [destruct (h !! key)|]; now intros [= <- _].
Qed.

Lemma np_min_lib l e : np_min l = Raise e -> raised_locally e = false.
Proof. destruct l; now intros [= <-]. Qed.
Lemma np_max_lib l e : np_max l = Raise e -> raised_locally e = false.
Proof. destruct l; now intros [= <-]. Qed.

Lemma cfg_get_lib c sec key e :
  cfg_get c sec key = Raise e -> raised_locally e = false.
Proof.
  unfold cfg_get. destruct (c !! sec) as [s|]; [destruct (s !! key)|];
    now intros [= <-].
Qed.

Lemma cfg_set_lib c sec key v e :
  cfg_set c sec key v = Raise e -> raised_locally e = false.
Proof. unfold cfg_set. destruct (c !! sec); now intros [= <-]. Qed.

Lemma cfg_append_lib c sec key v e :
  cfg_append c sec key v = Raise e -> raised_locally e = false.
Proof.
  unfold cfg_append. destruct (cfg_get c sec key) as [x|e0] eqn:E.
  - destruct x; try now intros [= <-]. apply cfg_set_lib.
  - intros [= <-]. eapply cfg_get_lib, E.
Qed.

Lemma as_str_lib v e : as_str v = Raise e -> raised_locally e = false.
Proof. destruct v; now intros [= <-]. Qed.

Lemma split_last_lib p e : split_last p = Raise e -> raised_locally e = false.
Proof. unfold split_last. destruct (last _); now intros [= <-]. Qed.

Lemma py_format_lib fr ff fmt :
  forall args e, py_format fr ff fmt args = Raise e -> raised_locally e = false.
Proof.
  induction fmt as [|[s|spec] fmt IH]; intros args e; cbn [py_format].
  - discriminate.
  - destruct (py_format fr ff fmt args) eqn:E; [discriminate|].
    intros [= <-]. eapply IH, E.
  - destruct args as [|v args]; [now intros [= <-]|].
    destruct (format_value fr ff spec v) eqn:Ev.
    + destruct (py_format fr ff fmt args) eqn:E; [discriminate|].
      intros [= <-]. eapply IH, E.
    + intros [= <-]. destruct spec, v; now inversion Ev.
Qed.

Lemma lib_errors_write_into folder name a :
  lib_errors (write_into folder name a).
Proof.
  intros w e w'. unfold write_into. destruct (_ && _); now intros [= <- _].
Qed.

Lemma sed_bins_lib {rt : Host} emin emax e :
  sed_bins emin emax = Raise e -> raised_locally e = false.
Proof.
  unfold sed_bins. destruct (_ && _); [discriminate|].
  destruct (_ || _ || _); now intros [= <-].
Qed.

Create HintDb lib.
#[local] Hint Resolve lib_errors_ret lib_errors_gets lib_errors_modify
  lib_errors_fits_open lib_errors_hdu_header lib_errors_write_into : lib.
#[local] Hint Resolve np_min_lib np_max_lib cfg_get_lib cfg_set_lib
  cfg_append_lib as_str_lib split_last_lib py_format_lib sed_bins_lib : lib.
#[local] Hint Extern 2 (lib_errors (lift _)) =>
  apply lib_errors_lift; intros; eauto with lib : lib.

Ltac lib_chain :=
  repeat (apply lib_errors_bind; [solve [eauto with lib] | intros]);
  eauto with lib.

Lemma lib_errors_scan folder files :
  forall tmin tmax, lib_errors (scan_headers folder files tmin tmax).
Proof.
  induction files as [|f rest IH]; intros tmin tmax; cbn [scan_headers].
  - auto with lib.
  - lib_chain.
Qed.

Lemma lib_errors_get_time_window {rt : Host} folder :
  lib_errors (get_time_window folder).
Proof.
  unfold get_time_window.
  apply lib_errors_bind; [auto with lib | intros files].
  apply lib_errors_bind; [apply lib_errors_scan | intros t].
  lib_chain.
Qed.

(** ** Time Window Resolver *)

Lemma Forall2_In_r {A B} (P : A -> B -> Prop) l k b :
  Forall2 P l k -> In b k -> exists a, In a l /\ P a b.
Proof.
  induction 1 as [|a b' l k Hab _ IH]; [intros []|].
  intros [<-|Hb]; [exists a; split; [now left | exact Hab]|].
  destruct (IH Hb) as (a' & Ha' & HP). exists a'. split; [now right | exact HP].
Qed.

Lemma Forall2_In_l {A B} (P : A -> B -> Prop) l k a :
  Forall2 P l k -> In a l -> exists b, In b k /\ P a b.
Proof.
  induction 1 as [|a' b l k Hab _ IH]; [intros []|].
  intros [<-|Ha]; [exists b; split; [now left | exact Hab]|].
  destruct (IH Ha) as (b' & Hb' & HP). exists b'. split; [now right | exact HP].
Qed.

Lemma scan_headers_ok folder w files :
  (forall f, In f files ->
     is_Some (fits_header w f "TSTART") /\ is_Some (fits_header w f "TSTOP")) ->
  forall tmin tmax, exists starts stops,
    scan_headers folder files tmin tmax w
      = (Ok (tmin ++ starts, tmax ++ stops), w)
    /\ Forall2 (fun f a => fits_header w f "TSTART" = Some a) files starts
    /\ Forall2 (fun f b => fits_header w f "TSTOP" = Some b) files stops.
Proof.
  induction files as [|f rest IH]; intros Hk tmin tmax.
  - exists [], []. cbn. rewrite !app_nil_r. repeat split; constructor.
  - destruct (Hk f (or_introl eq_refl)) as [[a Ha] [b Hb]].
    destruct (IH (fun g Hg => Hk g (or_intror Hg)) (tmin ++ [a]) (tmax ++ [b]))
      as (starts & stops & Hscan & Hs & Ht).
    exists (a :: starts), (b :: stops). split; [|split; constructor; assumption].
    cbn [scan_headers]. unfold fits_header in Ha, Hb.
    destruct (data_dir w !! f) as [[hdus|c]|] eqn:Ef; try discriminate.
    destruct (hdus !! 1%nat) as [h|] eqn:Eh; try discriminate.
    cbn in Ha, Hb.
    unfold bind at 1. unfold fits_open. rewrite Ef.
    unfold bind at 1. unfold hdu_header at 1. rewrite Eh, Ha. cbn [ret].
    unfold bind at 1. unfold hdu_header at 1. rewrite Eh, Hb. cbn [ret].
    rewrite Hscan. now rewrite <- !app_assoc.
Qed.

Lemma get_time_window_ok {rt : Host} folder w :
  ph_files w <> [] ->
  (forall f, In f (ph_files w) ->
     is_Some (fits_header w f "TSTART") /\ is_Some (fits_header w f "TSTOP")) ->
  exists lo hi,
    get_time_window folder w = (Ok (lo, hi), w)
    /\ (exists f, In f (ph_files w) /\ fits_header w f "TSTART" = Some lo)
    /\ (forall f a, In f (ph_files w) ->
          fits_header w f "TSTART" = Some a -> lo <= a)
    /\ (exists f, In f (ph_files w) /\ fits_header w f "TSTOP" = Some hi)
    /\ (forall f b, In f (ph_files w) ->
          fits_header w f "TSTOP" = Some b -> b <= hi).
Proof.
  intros Hne Hk.
  destruct (scan_headers_ok folder w (ph_files w) Hk [] [])
    as (starts & stops & Hscan & Hs & Ht).
  cbn [app] in Hscan.
  assert (Hs_ne : starts <> []).
  { intros ->. inversion Hs as [E|]. now apply Hne. }
  assert (Ht_ne : stops <> []).
  { intros ->. inversion Ht as [E|]. now apply Hne. }
  destruct (np_min_spec starts Hs_ne) as (lo & Elo & Hlo_in & Hlo).
  destruct (np_max_spec stops Ht_ne) as (hi & Ehi & Hhi_in & Hhi).
  exists lo, hi. split; [|repeat split].
  - unfold get_time_window. unfold bind at 1. cbn [gets].
    fold (ph_files w). unfold bind at 1. rewrite Hscan. cbn [fst snd].
    unfold bind at 1, lift at 1. rewrite Elo.
    unfold bind at 1, lift at 1. rewrite Ehi. reflexivity.
  - destruct (Forall2_In_r _ _ _ _ Hs Hlo_in) as (f & Hf & E). eauto.
  - intros f a Hf Ea.
    destruct (Forall2_In_l _ _ _ _ Hs Hf) as (a' & Ha' & E).
    rewrite Ea in E. injection E as <-. now apply Hlo.
  - destruct (Forall2_In_r _ _ _ _ Ht Hhi_in) as (f & Hf & E). eauto.
  - intros f b Hf Eb.
    destruct (Forall2_In_l _ _ _ _ Ht Hf) as (b' & Hb' & E).
    rewrite Eb in E. injection E as <-. now apply Hhi.
Qed.

(** ** File Preparer *)

Lemma listdir_lookup {rt : Host} (w : world) (f : string) :
  f ∈ os_listdir w <-> is_Some (data_dir w !! f).
Proof.
  unfold os_listdir. rewrite (listdir_perm (data_dir w)).
  rewrite list_elem_of_fmap. split.
  - intros ([g x] & -> & H). apply elem_of_map_to_list in H. now exists x.
  - intros [x H]. exists (f, x). split; [reflexivity|].
    now apply elem_of_map_to_list.
Qed.

Lemma In_sc_files {rt : Host} (w : world) (f : string) :
  In f (sc_files w) -> f ∈ os_listdir w /\ PyStr.contains "SC" f = true.
Proof.
  unfold sc_files. rewrite filter_In, <- list_elem_of_In. tauto.
Qed.

(** What the preparer leaves alone. *)
Lemma setup_data_files_frame {rt : Host} folder w r w' :
  setup_data_files folder w = (r, w') ->
  default_yaml w' = default_yaml w /\ fs_dirs w' = fs_dirs w
  /\ fs_files w' = fs_files w /\ engine_log w' = engine_log w.
Proof.
  unfold setup_data_files, bind, gets, ret, throw, write_data_file, modify,
    os_rename.
  repeat case_bool_decide;
    repeat match goal with
      | |- context [if ?b then _ else _] => destruct b
      | |- context [match ?o with Some _ => _ | None => _ end] => destruct o
      end; intros [= <- <-]; auto.
Qed.

Lemma setup_data_files_one {rt : Host} folder w :
  "spacecraft.fits" ∉ os_listdir w ->
  length (sc_files w) = 1%nat ->
  exists f x w',
    sc_files w = [f] /\ data_dir w !! f = Some x
    /\ setup_data_files folder w = (Ok tt, w')
    /\ data_dir w' !! "spacecraft.fits" = Some x
    /\ data_dir w' !! f = None.
Proof.
  intros Hno Hlen.
  destruct (sc_files w) as [|f [|]] eqn:Esc; try discriminate.
  destruct (In_sc_files w f) as [Hf Hc]; [rewrite Esc; now left|].
  destruct (proj1 (listdir_lookup w f) Hf) as [x Hx].
  assert (Hfe : f <> "events.txt") by (intros ->; discriminate Hc).
  assert (Hfs : f <> "spacecraft.fits") by (intros ->; discriminate Hc).
  exists f, x.
  unfold setup_data_files. unfold bind at 1. cbn [gets].
  fold (sc_files w). rewrite Esc. cbn [length Nat.eqb lookup list_lookup].
  rewrite (bool_decide_eq_false_2 _ Hno).
  case_bool_decide.
  - eexists. unfold bind, ret, os_rename. rewrite Hx.
    split; [reflexivity|]. split; [first [exact Hx | reflexivity]|]. split; [reflexivity|].
    cbn [data_dir set_data_dir]. split.
    + apply lookup_insert_eq.
    + rewrite lookup_insert_ne by congruence. apply lookup_delete_eq.
  - eexists. unfold bind, write_data_file, modify, os_rename.
    cbn [data_dir set_data_dir].
    rewrite lookup_insert_ne by congruence. rewrite Hx.
    split; [reflexivity|]. split; [first [exact Hx | reflexivity]|]. split; [reflexivity|].
    cbn [data_dir set_data_dir]. split.
    + apply lookup_insert_eq.
    + rewrite lookup_insert_ne by congruence. apply lookup_delete_eq.
Qed.

Lemma setup_data_files_none_or_many {rt : Host} folder w :
  "spacecraft.fits" ∉ os_listdir w ->
  length (sc_files w) <> 1%nat ->
  exists w',
    setup_data_files folder w
      = (Raise (Exception "No Spacecraft File Available!"), w').
Proof.
  intros Hno Hlen.
  unfold setup_data_files. unfold bind at 1. cbn [gets].
  fold (sc_files w). rewrite (bool_decide_eq_false_2 _ Hno).
  apply Nat.eqb_neq in Hlen. rewrite Hlen.
  case_bool_decide; eexists; reflexivity.
Qed.

Lemma setup_data_files_raise {rt : Host} folder w e w' :
  setup_data_files folder w = (Raise e, w') ->
  raised_locally e = true ->
  e = Exception "No Spacecraft File Available!"
  /\ ("spacecraft.fits" ∉ os_listdir w)
  /\ length (sc_files w) <> 1%nat.
Proof.
  unfold setup_data_files. unfold bind at 1. cbn [gets]. fold (sc_files w).
  intros H Hloc.
  destruct (bool_decide ("spacecraft.fits" ∈ os_listdir w)) eqn:Esp.
  - exfalso. revert H. unfold bind, ret, write_data_file, modify.
    destruct (bool_decide ("events.txt" ∈ os_listdir w)); discriminate.
  - apply bool_decide_eq_false in Esp.
    destruct ((length (sc_files w) =? 1)%nat) eqn:Elen.
    + exfalso. revert H. unfold bind, ret, write_data_file, modify, throw,
        os_rename.
      destruct (bool_decide ("events.txt" ∈ os_listdir w));
        repeat match goal with
          | |- context [match ?o with Some _ => _ | None => _ end] => destruct o
          end; cbv beta iota;
        intros H; first [discriminate H | injection H as <- _; discriminate Hloc].
    + apply Nat.eqb_neq in Elen. split; [|split; assumption].
      revert H. unfold bind, ret, write_data_file, modify, throw.
      destruct (bool_decide ("events.txt" ∈ os_listdir w)); now intros [= <- _].
Qed.

(** ** Config Builder *)

Lemma string_app_nil_r (s : string) : s +:+ "" = s.
Proof.
  induction s as [|a s IH]; [reflexivity|].
  change (String a (s +:+ "") = String a s). now rewrite IH.
Qed.

Lemma cfg_get_lookup (c : config) sec key v :
  cfg_get c sec key = Ok v -> cfg_lookup c sec key = Some v.
Proof.
  unfold cfg_get, cfg_lookup. destruct (c !! sec) as [s|]; [|discriminate].
  cbn. destruct (s !! key); now intros [= ->].
Qed.

Lemma cfg_set_step (c c' : config) sec key v :
  cfg_set c sec key v = Ok c' -> cfg_step c c' sec key v.
Proof.
  unfold cfg_set. destruct (c !! sec) as [s0|] eqn:E; [|discriminate].
  intros [= <-]. repeat split.
  - unfold cfg_lookup. rewrite lookup_insert_eq. cbn. apply lookup_insert_eq.
  - intros s k Hne. unfold cfg_lookup.
    destruct (decide (s = sec)) as [->|Hs].
    + rewrite lookup_insert_eq, E. cbn.
      destruct Hne as [Hne|Hne]; [congruence|].
      now rewrite lookup_insert_ne by congruence.
    + now rewrite lookup_insert_ne by congruence.
  - rewrite dom_insert_L.
    apply subseteq_union_1_L, singleton_subseteq_l, elem_of_dom. eauto.
Qed.

Lemma cfg_append_step (c c' : config) sec key v :
  cfg_append c sec key v = Ok c' ->
  exists l, cfg_lookup c sec key = Some (VList l)
            /\ cfg_step c c' sec key (VList (l ++ [v])).
Proof.
  unfold cfg_append. destruct (cfg_get c sec key) as [x|] eqn:E; [|discriminate].
  destruct x; try discriminate. intros H. eexists. split.
  - apply cfg_get_lookup, E.
  - apply cfg_set_step, H.
Qed.

Lemma split_last_ok p b : split_last p = Ok b -> last (PyStr.split slash p) = Some b.
Proof. unfold split_last. destruct (last _); now intros [= ->]. Qed.

Lemma as_str_ok v s : as_str v = Ok s -> v = VStr s.
Proof. destruct v; now intros [= ->]. Qed.

Lemma not_overridden s k sec key :
  (s, k) ∉ overridden -> (sec, key) ∈ overridden -> s <> sec \/ k <> key.
Proof.
  intros Hn Hin. destruct (decide (s = sec)) as [->|]; [right | now left].
  intros ->. contradiction.
Qed.

Ltac bind_inv H :=
  let a := fresh "a" in let w := fresh "w" in let E := fresh "E" in
  apply bind_ok in H as (a & w & E & H).

Tactic Notation "bind_as" hyp(H) ident(a) ident(w) ident(E) :=
  apply bind_ok in H as (a & w & E & H).

Ltac lift_inv E :=
  let Ew := fresh "Ew" in apply lift_ok in E as [E Ew]; subst.

(** Rewrite a lookup in the newest configuration back through the
    assignments that do not touch it. *)
Ltac through S :=
  rewrite (proj1 (proj2 S)) by (first [left; discriminate | right; discriminate]).
Ltac through_in S H :=
  rewrite (proj1 (proj2 S)) in H
    by (first [left; discriminate | right; discriminate]).
Ltac through_frame S Hn :=
  rewrite (proj1 (proj2 S))
    by (apply (not_overridden _ _ _ _ Hn), list_elem_of_In; cbn; tauto).

Section Driver.
Context {rt : Host}.

Lemma format_ok fmt args w s w' :
  format fmt args w = (Ok s, w') ->
  py_format float_repr float_fixed fmt args = Ok s /\ w' = w.
Proof. apply lift_ok. Qed.

Lemma catalogs_steps (a : Args) (c8 c9 c10 : config) w8 w9 w10 :
  cfg_lookup c8 "model" "catalogs" = Some (VList []) ->
  match xml_path a with
  | Some x =>
      s <- format [Field FDefault] [PStr x] ;;
      lift (cfg_append c8 "model" "catalogs" (VStr s))
  | None => ret c8
  end w8 = (Ok c9, w9) ->
  (if use_3FGL a
   then lift (cfg_append c9 "model" "catalogs" (VStr "3FGL"))
   else ret c9) w9 = (Ok c10, w10) ->
  w10 = w8
  /\ cfg_lookup c10 "model" "catalogs" = Some (VList (catalogs_of a))
  /\ (forall s k, s <> "model" \/ k <> "catalogs" ->
        cfg_lookup c10 s k = cfg_lookup c8 s k)
  /\ dom c10 = dom c8.
Proof.
  intros L8 H9 H10. unfold catalogs_of.
  assert (X : w9 = w8 /\ cfg_lookup c9 "model" "catalogs"
                = Some (VList (match xml_path a with
                               | Some x => [VStr x] | None => [] end))
              /\ (forall s k, s <> "model" \/ k <> "catalogs" ->
                    cfg_lookup c9 s k = cfg_lookup c8 s k)
              /\ dom c9 = dom c8).
  { destruct (xml_path a) as [x|].
    - bind_inv H9. apply format_ok in E as [E ->].
      cbn in E. injection E as <-. rewrite string_app_nil_r in H9.
      lift_inv H9. apply cfg_append_step in H9 as (l & Hl & S).
      rewrite L8 in Hl. injection Hl as <-.
      split; [reflexivity|]. exact S.
    - injection H9 as <- <-. auto. }
  destruct X as (-> & L9 & F9 & D9).
  destruct (use_3FGL a).
  - lift_inv H10. apply cfg_append_step in H10 as (l & Hl & S).
    rewrite L9 in Hl. injection Hl as <-.
    destruct S as (L10 & F10 & D10).
    split; [reflexivity|]. split; [exact L10|]. split.
    + intros s k Hne. now rewrite F10, F9.
    + now rewrite D10.
  - injection H10 as <- <-. rewrite app_nil_r. auto.
Qed.

Lemma write_into_ok folder name a w u w' :
  write_into folder name a w = (Ok u, w') ->
  folder ∈ fs_dirs w /\ w' = write_file (os_path_join folder name) a w.
Proof.
  unfold write_into. case_bool_decide; [|discriminate].
  destruct (negb _); [|discriminate]. intros [= _ <-]. auto.
Qed.

Lemma write_into_raise folder name a w e w' :
  write_into folder name a w = (Raise e, w') ->
  e = IOError (os_path_join folder name) /\ w' = w.
Proof.
  unfold write_into. destruct (_ && _); [discriminate|].
  intros [= <- <-]. auto.
Qed.

Lemma write_into_returns folder name a w :
  folder ∈ fs_dirs w ->
  os_path_join folder name ∉ fs_dirs w ->
  write_into folder name a w
  = (Ok tt, write_file (os_path_join folder name) a w).
Proof.
  intros H Hn. unfold write_into.
  now rewrite (bool_decide_eq_true_2 _ H), (bool_decide_eq_false_2 _ Hn).
Qed.

Lemma write_into_refused folder name a w :
  os_path_join folder name ∈ fs_dirs w ->
  write_into folder name a w = (Raise (IOError (os_path_join folder name)), w).
Proof.
  intros H. unfold write_into.
  now rewrite (bool_decide_eq_true_2 _ H), andb_false_r.
Qed.

Lemma create_config_ok args src tmin tmax o w w' :
  create_config args src tmin tmax o w
    = (Ok tt, w') ->
  exists tmpl cfg,
    default_yaml w = Template tmpl
    /\ o ∈ fs_dirs w
    /\ w' = write_file (os_path_join o "config.yaml") (ConfigYaml cfg) w
    /\ merged args src tmin tmax tmpl cfg.
Proof.
  unfold create_config. intros H.
  bind_inv H. rename a into tmpl.
  assert (Et : default_yaml w = Template tmpl /\ w0 = w).
  { revert E. unfold load_template.
    destruct (default_yaml w); now intros [= -> ->]. }
  destruct Et as [Et ->]. clear E.
  bind_inv H. lift_inv E. apply cfg_set_step in E. rename E into S1, a into c1.
  bind_inv H. lift_inv E. apply cfg_set_step in E. rename E into S2, a into c2.
  bind_inv H. lift_inv E. apply cfg_set_step in E. rename E into S3, a into c3.
  bind_inv H. lift_inv E. apply cfg_set_step in E. rename E into S4, a into c4.
  bind_inv H. lift_inv E. apply cfg_set_step in E. rename E into S5, a into c5.
  bind_inv H. lift_inv E. apply cfg_get_lookup in E. rename E into Gev.
  bind_inv H. lift_inv E. apply as_str_ok in E as ->. rename a0 into ev.
  bind_inv H. lift_inv E. apply split_last_ok in E. rename E into Lev, a into evb.
  bind_inv H. lift_inv E. apply cfg_set_step in E. rename E into S6, a into c6.
  bind_inv H. lift_inv E. apply cfg_get_lookup in E. rename E into Gsc.
  bind_inv H. lift_inv E. apply as_str_ok in E as ->. rename a0 into sc.
  bind_inv H. lift_inv E. apply split_last_ok in E. rename E into Lsc, a into scb.
  bind_inv H. lift_inv E. apply cfg_set_step in E. rename E into S7, a into c7.
  bind_inv H. lift_inv E. apply cfg_set_step in E. rename E into S8, a into c8.
  bind_inv H. rename E into H9, a into c9.
  bind_inv H. rename E into H10, a into c10.
  destruct (catalogs_steps args c8 c9 c10 w w0 w1 (proj1 S8) H9 H10)
    as (-> & L10 & F10 & D10).
  apply write_into_ok in H as [Hdir ->].
  exists tmpl, c10. split; [exact Et|]. split; [exact Hdir|].
  split; [reflexivity|].
  exists ev, sc, evb, scb.
  through_in S5 Gev. through_in S4 Gev. through_in S3 Gev.
  through_in S2 Gev. through_in S1 Gev.
  through_in S6 Gsc. through_in S5 Gsc. through_in S4 Gsc.
  through_in S3 Gsc. through_in S2 Gsc. through_in S1 Gsc.
  split; [exact Gev|]. split; [exact Lev|].
  split; [exact Gsc|]. split; [exact Lsc|].
  split. { rewrite F10 by (left; discriminate).
           through S8. through S7. through S6. through S5. through S4.
           through S3. through S2. apply S1. }
  split. { rewrite F10 by (left; discriminate).
           through S8. through S7. through S6. through S5. through S4.
           through S3. apply S2. }
  split. { rewrite F10 by (left; discriminate).
           through S8. through S7. through S6. through S5. through S4.
           apply S3. }
  split. { rewrite F10 by (left; discriminate).
           through S8. through S7. through S6. through S5. apply S4. }
  split. { rewrite F10 by (left; discriminate).
           through S8. through S7. through S6. apply S5. }
  split. { rewrite F10 by (left; discriminate).
           through S8. through S7. apply S6. }
  split. { rewrite F10 by (left; discriminate).
           through S8. apply S7. }
  split; [exact L10|]. split.
  - intros s k Hn.
    rewrite F10
      by (apply (not_overridden _ _ _ _ Hn), list_elem_of_In; cbn; tauto).
    through_frame S8 Hn. through_frame S7 Hn. through_frame S6 Hn.
    through_frame S5 Hn. through_frame S4 Hn. through_frame S3 Hn.
    through_frame S2 Hn. through_frame S1 Hn. reflexivity.
  - rewrite D10.
    rewrite (proj2 (proj2 S8)), (proj2 (proj2 S7)), (proj2 (proj2 S6)),
      (proj2 (proj2 S5)), (proj2 (proj2 S4)), (proj2 (proj2 S3)),
      (proj2 (proj2 S2)). apply S1.
Qed.

(** *** Engine protocol *)

Lemma log_calls_app a b w :
  log_calls b (log_calls a w) = log_calls (a ++ b) w.
Proof. unfold log_calls. cbn. now rewrite app_assoc. Qed.

Lemma log_calls_nil w : log_calls [] w = w.
Proof. unfold log_calls. rewrite app_nil_r. now destruct w. Qed.

Lemma engine_step_ok c w u w' :
  engine c w = (Ok u, w') -> w' = log_calls [c] w.
Proof.
  unfold engine. destruct (engine_ok (engine_log w) c); now intros [= _ <-].
Qed.

Lemma for_each_engine_ok (f : string -> engine_call) keys :
  forall w u w',
    for_each keys (fun k => engine (f k)) w = (Ok u, w') ->
    w' = log_calls (map f keys) w.
Proof.
  induction keys as [|k keys IH]; intros w u w' H; cbn in H.
  - injection H as _ <-. now rewrite log_calls_nil.
  - bind_as H u1 w1 E. apply engine_step_ok in E as ->. apply IH in H as ->.
    apply log_calls_app.
Qed.

Lemma free_other_sources_ok args w u w' :
  free_other_sources args w = (Ok u, w') ->
  w' = log_calls (freeing_calls args) w.
Proof.
  unfold free_other_sources, freeing_calls.
  destruct (free_radius args) as [r|].
  - apply engine_step_ok.
  - destruct (free_sources args) as [keys|].
    + apply for_each_engine_ok.
    + intros [= _ <-]. now rewrite log_calls_nil.
Qed.

Lemma configure_target_ok args src w fp w' :
  configure_target args src w = (Ok fp, w') ->
  fp = free_pars_of args
  /\ log_calls [gta_free_source src None false;
                gta_free_source src fp true] w'
     = log_calls (target_calls args src) w.
Proof.
  unfold configure_target, free_pars_of, target_calls, free_pars_of.
  destruct (src_gamma args) as [g|].
  - intros H. bind_as H u1 w1 E. apply engine_step_ok in E as ->.
    injection H as <- <-. split; [reflexivity|]. apply log_calls_app.
  - destruct (free_norm args).
    + intros [= <- <-]. split; reflexivity.
    + intros H. bind_as H u1 w1 E. apply engine_step_ok in E as ->.
      injection H as <- <-. split; [reflexivity|]. apply log_calls_app.
Qed.

Lemma reads_only_time_window args : reads_only (time_window args).
Proof.
  unfold time_window. destruct (time_range args) as [[t0 t1]|].
  - apply reads_only_ret.
  - apply reads_only_get_time_window.
Qed.

Lemma lib_errors_time_window args : lib_errors (time_window args).
Proof.
  unfold time_window. destruct (time_range args) as [[t0 t1]|].
  - apply lib_errors_ret.
  - apply lib_errors_get_time_window.
Qed.

(** The default output folder cannot be built: the first field of the
    format string is numeric and receives the source name. *)
Lemma default_basepath_raises args tmin tmax w :
  default_basepath args tmin tmax w
  = (Raise (ValueError "Unknown format code 'f' for object of type 'str'"), w).
Proof. reflexivity. Qed.

Lemma artifact_name_ok prefix suffix args w s w' :
  format (emin_emax_fmt prefix suffix)
    [PInt (py_int (emin args)); PInt (py_int (emax args))] w = (Ok s, w') ->
  s = artifact_name prefix suffix args /\ w' = w.
Proof.
  intros H. apply format_ok in H as [H ->]. split; [|reflexivity].
  cbn in H. injection H as <-. unfold artifact_name.
  now rewrite string_app_nil_r.
Qed.

Lemma positive_iff (x : Q) : positive x = true <-> 0 < x.
Proof.
  unfold positive. rewrite negb_true_iff, <- not_true_iff_false, Qle_bool_iff.
  split; [apply Qnot_le_lt | apply Qlt_not_le].
Qed.

Lemma sed_bins_ok emin emax bins :
  sed_bins emin emax = Ok bins ->
  bins = loge_bins emin emax /\ 0 < emin /\ 0 < emax.
Proof.
  unfold sed_bins.
  destruct (positive emin) eqn:E1; destruct (positive emax) eqn:E2; cbn [andb];
    try (destruct (_ || _ || _); discriminate).
  intros [= <-]. rewrite <- !positive_iff. auto.
Qed.

Lemma sed_bins_raise emin emax e :
  sed_bins emin emax = Raise e ->
  ~ (0 < emin /\ 0 < emax) /\ exists msg, e = ValueError msg.
Proof.
  unfold sed_bins. rewrite <- !positive_iff.
  destruct (positive emin && positive emax) eqn:E; [discriminate|].
  intros H. split.
  - intros [H1 H2]. rewrite H1, H2 in E. discriminate.
  - destruct (_ || _ || _); injection H as <-; eauto.
Qed.

Lemma sed_bins_returns emin emax :
  0 < emin -> 0 < emax -> sed_bins emin emax = Ok (loge_bins emin emax).
Proof.
  rewrite <- !positive_iff. intros H1 H2. unfold sed_bins.
  now rewrite H1, H2.
Qed.

(** The anatomy of a run that returns. *)
Lemma run_fit_ok args w w' :
  run_fit args w = (Ok tt, w') ->
  let src := PyStr.replace "_" " " (target_src args) in
  exists t o w1 tmpl cfg,
    time_window args w = (Ok t, w)
    /\ outfolder args = Some o
    /\ setup_data_files (data_path args) w = (Ok tt, w1)
    /\ default_yaml w = Template tmpl
    /\ merged args src t.1 t.2 tmpl cfg
    /\ data_dir w' = data_dir w1
    /\ fs_files w'
       = <[os_path_join o (artifact_name "bowtie_emin_" ".npy" args)
             := BowtieNpy src]>
           (<[os_path_join o "config.yaml" := ConfigYaml cfg]> (fs_files w))
    /\ engine_log w'
       = engine_log w
         ++ [GTAnalysis (os_path_join o "config.yaml") 3; gta_setup]
         ++ freeing_calls args
         ++ target_calls args src
         ++ diffuse_calls args
         ++ [gta_fit (retries args);
             gta_write_roi (artifact_name "llh_emin_" ".npy" args);
             gta_bowtie src]
         ++ (if no_sed args then []
             else [gta_sed src (artifact_name "sed_emin_" ".fits" args)
                     (loge_bins (emin args) (emax args))
                     (free_pars_of args) (free_radius args)]).
Proof.
  intros H src. unfold run_fit in H. fold src in H.
  bind_as H t wa Etw.
  assert (wa = w) by (eapply reads_only_eq, Etw; apply reads_only_time_window).
  subst wa.
  bind_as H o wb Eb.
  destruct (outfolder args) as [o'|] eqn:Eo;
    [|rewrite default_basepath_raises in Eb; discriminate].
  injection Eb as -> <-.
  bind_as H u1 w1 Esetup. destruct u1.
  destruct (setup_data_files_frame _ _ _ _ Esetup) as (Fy & Fd & Ff & Fl).
  bind_as H ex wc Eex. injection Eex as <- <-.
  bind_as H u2 w2 Emk.
  assert (F2 : data_dir w2 = data_dir w1 /\ default_yaml w2 = default_yaml w
               /\ fs_files w2 = fs_files w /\ engine_log w2 = engine_log w).
  { destruct (os_path_exists o w1); unfold ret, os_makedirs, modify in Emk;
      inversion Emk; subst; repeat split; cbn; congruence. }
  clear Emk. destruct F2 as (Gd & Gy & Gf & Gl).
  bind_as H u3 w3 Ecfg. destruct u3.
  apply create_config_ok in Ecfg as (tmpl & cfg & Et & _ & -> & Hm).
  unfold run_analysis in H.
  bind_as H u4 w4 E. destruct u4. apply engine_step_ok in E as ->.
  bind_as H u5 w5 E. destruct u5. apply engine_step_ok in E as ->.
  bind_as H u6 w6 E. destruct u6. apply free_other_sources_ok in E as ->.
  bind_as H fp w7 E. apply configure_target_ok in E as [-> Etgt].
  bind_as H u8 w8 E. destruct u8. apply engine_step_ok in E as ->.
  bind_as H u9 w9 E. destruct u9. apply engine_step_ok in E as ->.
  rewrite log_calls_app in H. cbn [app] in H. rewrite Etgt in H. clear Etgt.
  rewrite !log_calls_app in H. cbn [app] in H.
  bind_as H u10 w10 E.
  match type of E with _ ?wx = _ =>
    assert (Ed : w10 = log_calls (diffuse_calls args) wx) end.
  { unfold diffuse_calls. destruct (free_diff args).
    - bind_as E u11 w11 E1. apply engine_step_ok in E1 as ->.
      apply engine_step_ok in E as ->. apply log_calls_app.
    - injection E as _ <-. now rewrite log_calls_nil. }
  clear E. subst w10. rewrite log_calls_app in H.
  bind_as H u12 w12 E. destruct u12. apply engine_step_ok in E as ->.
  bind_as H roi w13 E. apply artifact_name_ok in E as [-> ->].
  bind_as H u14 w14 E. destruct u14. apply engine_step_ok in E as ->.
  bind_as H u15 w15 E. destruct u15. apply engine_step_ok in E as ->.
  bind_as H bow w16 E. apply artifact_name_ok in E as [-> ->].
  bind_as H u17 w17 E. apply write_into_ok in E as [_ ->].
  rewrite !log_calls_app in H.
  match type of H with _ ?wx = _ =>
    assert (Ew : w' = log_calls
                 (if no_sed args then []
                  else [gta_sed src (artifact_name "sed_emin_" ".fits" args)
                          (loge_bins (emin args) (emax args))
                          (free_pars_of args) (free_radius args)]) wx) end.
  { destruct (no_sed args).
    - injection H as <-. now rewrite log_calls_nil.
    - bind_as H ofile w18 E. apply artifact_name_ok in E as [-> ->].
      bind_as H bins w19 E. lift_inv E. apply sed_bins_ok in E as [-> _].
      apply engine_step_ok in H. exact H. }
  clear H.
  exists t, o, w1, tmpl, cfg.
  rewrite Gy in Et. subst w'.
  split; [exact Etw|]. split; [reflexivity|]. split; [exact Esetup|].
  split; [exact Et|]. split; [exact Hm|].
  cbn -[artifact_name os_path_join].
  rewrite Gd, Gf, Gl. split; [reflexivity|]. split; [reflexivity|].
  repeat first [rewrite <- app_assoc | rewrite <- app_comm_cons].
  reflexivity.
Qed.

(** *** Where the artifacts go *)

Lemma config_path_fresh o args :
  os_path_join o "config.yaml"
  <> os_path_join o (artifact_name "bowtie_emin_" ".npy" args).
Proof.
  assert (Hb : exists rest,
             artifact_name "bowtie_emin_" ".npy" args = String "b" rest)
    by (eexists; reflexivity).
  destruct Hb as [rest ->]. unfold os_path_join.
  change (PyStr.startswith_char "config.yaml" slash) with false.
  change (PyStr.startswith_char (String "b" rest) slash) with false.
  cbv iota.
  destruct (String.eqb o "" || PyStr.endswith_char o slash)%bool;
    intros H; apply String.app_inj in H; discriminate.
Qed.

Lemma persisted_config o args cfg src (files : gmap string artifact) :
  <[os_path_join o (artifact_name "bowtie_emin_" ".npy" args)
      := BowtieNpy src]>
    (<[os_path_join o "config.yaml" := ConfigYaml cfg]> files)
    !! os_path_join o "config.yaml"
  = Some (ConfigYaml cfg).
Proof.
  rewrite lookup_insert_ne
    by (intros H; symmetry in H; revert H; apply config_path_fresh).
  apply lookup_insert_eq.
Qed.

(** *** SED binning *)

Lemma np_arange_Qeq a a' b b' s :
  a == a' -> b == b' -> Forall2 Qeq (np_arange a b s) (np_arange a' b' s).
Proof.
  intros Ha Hb. unfold np_arange.
  assert (E : Qceiling ((b - a) / s) = Qceiling ((b' - a') / s))
    by (apply Qceiling_comp; now rewrite Ha, Hb).
  rewrite E. apply Forall2_fmap, Forall_Forall2_diag, Forall_forall.
  intros i _. now rewrite Ha.
Qed.

Lemma Forall2_Qeq_trans (l k m : list Q) :
  Forall2 Qeq l k -> Forall2 Qeq k m -> Forall2 Qeq l m.
Proof.
  intros H. revert m. induction H as [|x y l k Hxy _ IH]; intros m Hm.
  - inversion Hm. constructor.
  - inversion Hm as [|y' z k' m' Hyz Hkm]; subst. constructor.
    + now rewrite Hxy.
    + now apply IH.
Qed.

(** C1: in the scenario [emin=100], [emax=100000] with the SED enabled,
    the bin edges handed to [gta.sed] are [2.0, 2.5, ..., 4.5]:
    [np.arange] stops short of [log10(emax) = 5.0], so the edge list has
    six entries and its last one is 4.5, not 5.0. *)
Theorem sed_bins_stop_short args w w' :
  np_log10 100 == 2 -> np_log10 100000 == 5 ->
  emin args = 100 -> emax args = 100000 -> no_sed args = false ->
  run_fit args w = (Ok tt, w') ->
  exists bins,
    last (engine_log w')
    = Some (gta_sed (PyStr.replace "_" " " (target_src args))
              "sed_emin_100_emax_100000.fits" bins
              (free_pars_of args) (free_radius args))
    /\ Forall2 Qeq bins [2.0; 2.5; 3.0; 3.5; 4.0; 4.5]
    /\ ~ Exists (Qeq 5.0) bins.
Proof.
  intros Hlo Hhi Emin Emax Hsed Hrun.
  apply run_fit_ok in Hrun as (t & o & w1 & tmpl & cfg & _ & _ & _ & _ & _
                               & _ & _ & Hlog).
  rewrite Hsed in Hlog.
  assert (Hb : Forall2 Qeq (loge_bins (emin args) (emax args))
                 [2.0; 2.5; 3.0; 3.5; 4.0; 4.5]).
  { unfold loge_bins. rewrite Emin, Emax.
    eapply Forall2_Qeq_trans; [apply np_arange_Qeq; eassumption|].
    vm_compute. repeat constructor. }
  exists (loge_bins (emin args) (emax args)).
  split; [|split; [exact Hb|]].
  - rewrite Hlog, !app_assoc, last_snoc. do 3 f_equal.
    unfold artifact_name. rewrite Emin, Emax. reflexivity.
  - intros Hex. apply Exists_exists in Hex as (x & Hx & E5).
    apply list_elem_of_In in Hx.
    destruct (Forall2_In_l _ _ _ _ Hb Hx) as (y & Hy & Exy).
    rewrite <- E5 in Exy. cbn in Hy.
    repeat (destruct Hy as [<-|Hy]; [discriminate Exy|]). exact Hy.
Qed.

(** *** Output folder *)

(** C2 (amended): with no output folder, a run whose time window is
    resolved raises the formatting error of the default folder name,
    and a time range given by the user is always resolved; a run whose
    time window cannot be discovered has already raised; either way the
    run ends before any file is prepared or written and before the
    engine is invoked, the world being left as it was. *)
Theorem default_folder_never_built args w :
  outfolder args = None ->
  (exists e, run_fit args w = (Raise e, w))
  /\ (forall t, time_window args w = (Ok t, w) ->
        run_fit args w
        = (Raise (ValueError "Unknown format code 'f' for object of type 'str'"), w))
  /\ (forall e, time_window args w = (Raise e, w) ->
        run_fit args w = (Raise e, w))
  /\ (time_range args <> None ->
        run_fit args w
        = (Raise (ValueError "Unknown format code 'f' for object of type 'str'"), w)).
Proof.
  intros Ho.
  assert (Hok : forall t, time_window args w = (Ok t, w) ->
            run_fit args w
            = (Raise (ValueError "Unknown format code 'f' for object of type 'str'"), w)).
  { intros t Ht. unfold run_fit. rewrite (bind_step _ _ _ _ _ Ht), Ho.
    unfold bind at 1. now rewrite default_basepath_raises. }
  assert (Hraise : forall e, time_window args w = (Raise e, w) ->
            run_fit args w = (Raise e, w)).
  { intros e He. unfold run_fit. unfold bind at 1. now rewrite He. }
  split; [|split; [exact Hok|split; [exact Hraise|]]].
  - destruct (time_window args w) as [[t|e] w0] eqn:E;
      pose proof (reads_only_eq _ _ _ _ (reads_only_time_window args) E);
      subst w0; eauto.
  - intros Hr. unfold time_window in Hok.
    destruct (time_range args) as [[t0 t1]|]; [|congruence].
    eapply Hok. reflexivity.
Qed.

(** *** File Preparer *)

(** C3: in a data directory without [spacecraft.fits], exactly one file
    with the marker [SC] is renamed to [spacecraft.fits]; with no such
    file, or several, the preparer raises; and a run raises no other
    exception of its own. *)
Theorem spacecraft_file_prepared folder w :
  ("spacecraft.fits" ∉ os_listdir w ->
     (length (sc_files w) = 1%nat ->
        exists f x w',
          sc_files w = [f] /\ data_dir w !! f = Some x
          /\ setup_data_files folder w = (Ok tt, w')
          /\ data_dir w' !! "spacecraft.fits" = Some x
          /\ data_dir w' !! f = None)
     /\ (length (sc_files w) <> 1%nat ->
           exists w',
             setup_data_files folder w
             = (Raise (Exception "No Spacecraft File Available!"), w')))
  /\ (forall args e w',
        run_fit args w = (Raise e, w') -> raised_locally e = true ->
        e = Exception "No Spacecraft File Available!"
        /\ ("spacecraft.fits" ∉ os_listdir w)
        /\ length (sc_files w) <> 1%nat).
Proof.
  split.
  - intros Hno. split.
    + now apply setup_data_files_one.
    + now apply setup_data_files_none_or_many.
  - intros args e w' H Hloc. unfold run_fit in H.
    apply bind_raise in H as [H | (t & wa & Etw & H)].
    { apply lib_errors_time_window in H. congruence. }
    assert (wa = w)
      by (eapply reads_only_eq, Etw; apply reads_only_time_window).
    subst wa.
    apply bind_raise in H as [H | (o & wb & Eb & H)].
    { destruct (outfolder args); [discriminate|].
      rewrite default_basepath_raises in H. injection H as <- _.
      discriminate. }
    assert (wb = w).
    { destruct (outfolder args); [now injection Eb as _ <-|].
      rewrite default_basepath_raises in Eb. discriminate. }
    subst wb.
    apply bind_raise in H as [H | (u & w1 & _ & H)].
    { eapply setup_data_files_raise; eassumption. }
    exfalso. revert H Hloc. clear.
    intros H. enough (raised_locally e = false) by congruence.
    revert H. generalize w1 e w'.
    match goal with
    | |- forall a b c, ?m a = _ -> _ => change (lib_errors m)
    end.
    apply lib_errors_bind; [auto with lib | intros ex].
    apply lib_errors_bind; [destruct ex; unfold os_makedirs; auto with lib | intros].
    apply lib_errors_bind.
    { unfold create_config.
      apply lib_errors_bind.
      { intros wx ex' wy. unfold load_template.
        destruct (default_yaml wx); now intros [= <- _]. }
      intros c0. unfold format.
      repeat (apply lib_errors_bind; [solve [eauto with lib] | intros]).
      apply lib_errors_bind.
      { destruct (xml_path args); [|auto with lib]. lib_chain. }
      intros. apply lib_errors_bind.
      { destruct (use_3FGL args); auto with lib. }
      intros. auto with lib. }
    intros. unfold run_analysis.
    assert (Le : forall c, lib_errors (engine c)).
    { intros c wx ex' wy. unfold engine.
      destruct (engine_ok (engine_log wx) c); now intros [= <- _]. }
    assert (Lf : forall keys (f : string -> engine_call),
               lib_errors (for_each keys (fun k => engine (f k)))).
    { induction keys as [|k keys IH]; intros f; cbn [for_each].
      - auto with lib.
      - apply lib_errors_bind; [apply Le | intros; apply IH]. }
    unfold format, np_save.
    repeat (apply lib_errors_bind;
            [first [ apply Le
                   | solve [eauto with lib]
                   | unfold free_other_sources;
                     destruct (free_radius args);
                     [apply Le | destruct (free_sources args);
                                 [apply Lf | auto with lib]]
                   | unfold configure_target;
                     destruct (src_gamma args);
                     [apply lib_errors_bind; [apply Le | intros; auto with lib]
                     | destruct (free_norm args); [auto with lib|];
                       apply lib_errors_bind; [apply Le | intros; auto with lib]]
                   | destruct (free_diff args); [|auto with lib];
                     apply lib_errors_bind; [apply Le | intros; apply Le] ]
            | intros]).
    destruct (no_sed args); [auto with lib|].
    apply lib_errors_bind; [eauto with lib | intros].
    apply lib_errors_bind; [eauto with lib | intros; apply Le].
Qed.

(** *** Time Window Resolver *)

(** C5: a time range given in MJD is converted bound by bound with
    [met = (mjd - MJDREF) * 86400], [MJDREF] being
    [51910.0 + 7.428703703703703E-4], and the two converted bounds are
    what the persisted configuration carries as [tmin] and [tmax]. *)
Theorem explicit_range_converted args w w' (a b : Q) :
  time_range args = Some (a, b) ->
  run_fit args w = (Ok tt, w') ->
  MJDREF = 51910.0 + 7.428703703703703E-4
  /\ time_window args w
     = (Ok ((a - MJDREF) * 86400, (b - MJDREF) * 86400), w)
  /\ exists o cfg,
       outfolder args = Some o
       /\ fs_files w' !! os_path_join o "config.yaml" = Some (ConfigYaml cfg)
       /\ cfg_lookup cfg "selection" "tmin"
          = Some (VNum ((a - MJDREF) * 86400))
       /\ cfg_lookup cfg "selection" "tmax"
          = Some (VNum ((b - MJDREF) * 86400)).
Proof.
  intros Hr Hrun.
  assert (Htw : time_window args w
                = (Ok ((a - MJDREF) * 86400, (b - MJDREF) * 86400), w))
    by (unfold time_window; now rewrite Hr).
  split; [reflexivity|]. split; [exact Htw|].
  apply run_fit_ok in Hrun
    as (t & o & w1 & tmpl & cfg & Et & Ho & _ & _ & Hm & _ & Hfiles & _).
  rewrite Htw in Et. injection Et as <-.
  destruct Hm as (ev & sc & evb & scb & _ & _ & _ & _ & _ & _ & Htmin & Htmax & _).
  exists o, cfg. split; [exact Ho|]. split; [|split; assumption].
  rewrite Hfiles. apply persisted_config.
Qed.

(** C9: without a time range from the user, and with at least one raw
    event file, all of whose TSTART and TSTOP headers can be read, the
    resolver returns the least TSTART and the greatest TSTOP of those
    files. *)
Theorem discovered_window_is_extremal args w :
  time_range args = None ->
  ph_files w <> [] ->
  (forall f, In f (ph_files w) ->
     is_Some (fits_header w f "TSTART") /\ is_Some (fits_header w f "TSTOP")) ->
  exists lo hi,
    time_window args w = (Ok (lo, hi), w)
    /\ (exists f, In f (ph_files w) /\ fits_header w f "TSTART" = Some lo)
    /\ (forall f x, In f (ph_files w) ->
          fits_header w f "TSTART" = Some x -> lo <= x)
    /\ (exists f, In f (ph_files w) /\ fits_header w f "TSTOP" = Some hi)
    /\ (forall f x, In f (ph_files w) ->
          fits_header w f "TSTOP" = Some x -> x <= hi).
Proof.
  intros Hr Hne Hk. unfold time_window. rewrite Hr.
  now apply get_time_window_ok.
Qed.

(** *** Fit Orchestrator *)

Lemma freeing_calls_configure args :
  Forall (fun c => configures c = false) (freeing_calls args).
Proof.
  unfold freeing_calls. destruct (free_radius args); [repeat constructor|].
  destruct (free_sources args) as [l|]; [|constructor].
  apply Forall_fmap, Forall_forall. reflexivity.
Qed.

Lemma freeing_calls_address args src :
  Forall (addresses src
            ("galdiff" :: "isodiff"
             :: match free_sources args with
                | Some keys => keys
                | None => []
                end)) (freeing_calls args).
Proof.
  unfold freeing_calls. destruct (free_radius args); [repeat constructor|].
  destruct (free_sources args) as [l|]; [|constructor].
  apply Forall_fmap, Forall_forall. intros k Hk. cbn.
  right. right. right. now apply list_elem_of_In.
Qed.

(** Checks a property call by call along a log made of appended pieces. *)
Ltac each_call :=
  repeat (apply Forall_app; split); try assumption;
  repeat match goal with
    | |- context [match ?x with _ => _ end] => destruct x
    end;
  repeat match goal with
    | |- Forall _ [] => constructor
    | |- Forall _ (_ :: _) => constructor
    end;
  cbn; auto 7.

(** C6: when a radius and an explicit list of sources are both given,
    the run is the one obtained without the list, and the only freeing
    of neighbours is the call by radius, with TS threshold 2 and the
    diffuse components [isodiff] and [galdiff] excluded. *)
Theorem radius_overrides_source_list args w (r : Q) (keys : list string) :
  free_radius args = Some r ->
  free_sources args = Some keys ->
  run_fit args w = run_fit (with_free_sources None args) w
  /\ forall w', run_fit args w = (Ok tt, w') ->
       exists o rest,
         engine_log w'
         = engine_log w
           ++ [GTAnalysis (os_path_join o "config.yaml") 3; gta_setup;
               gta_free_sources r (Some 2, None) ["isodiff"; "galdiff"]]
           ++ rest
         /\ Forall (fun c =>
              match c with
              | gta_free_sources _ _ _ => False
              | gta_free_source n _ _ =>
                  n = PyStr.replace "_" " " (target_src args)
                  \/ n = "galdiff" \/ n = "isodiff"
              | _ => True
              end) rest.
Proof.
  intros Hr Hk. split.
  - unfold run_fit, run_analysis, free_other_sources, time_window,
      default_basepath, create_config, configure_target.
    cbn [with_free_sources target_src emin emax time_range data_path
         outfolder xml_path use_3FGL free_radius free_sources src_gamma
         free_norm free_diff retries no_sed].
    rewrite Hr. reflexivity.
  - intros w' Hrun.
    apply run_fit_ok in Hrun
      as (t & o & w1 & tmpl & cfg & _ & _ & _ & _ & _ & _ & _ & Hlog).
    unfold freeing_calls in Hlog. rewrite Hr in Hlog.
    exists o. eexists. split; [exact Hlog|].
    unfold target_calls, diffuse_calls. each_call.
Qed.

Lemma target_calls_protocol args src :
  target_calls args src = target_protocol args src.
Proof.
  unfold target_calls, target_protocol, free_pars_of.
  destruct (src_gamma args); [|destruct (free_norm args)]; reflexivity.
Qed.

(** C7 (amended): the target is configured in one of three ways: with an
    index override, the index is set and [free_pars] is ['norm']; else
    with the free-normalization flag, [free_pars] is ['norm']; else the
    optimizer runs and [free_pars] is [None].  Each time the target is
    then un-freed ([pars=None], [free=False]), which fixes every one of
    its parameters, and freed again with [free_pars]: in the first two
    cases the normalisation alone is left free, the shape staying
    fixed, in the third case every parameter of the target is left
    free. *)
Theorem target_three_way args w w' :
  run_fit args w = (Ok tt, w') ->
  let src := PyStr.replace "_" " " (target_src args) in
  let refreed flags :=
    free_source_flags (free_pars_of args) true
      (free_source_flags None false flags) in
  exists before after,
    engine_log w'
    = engine_log w ++ before ++ target_protocol args src ++ after
    /\ Forall (fun c => configures c = false) (before ++ after)
    /\ (exists pre,
          target_protocol args src
          = pre ++ [gta_free_source src None false;
                    gta_free_source src (free_pars_of args) true]
          /\ pre = match src_gamma args with
                   | Some g => [gta_set_parameter src "Index" g]
                   | None => if free_norm args then [] else [gta_optimize]
                   end)
    /\ (forall flags k, free_source_flags None false flags k = false)
    /\ match src_gamma args with
       | Some _ =>
           forall flags,
             refreed flags NormPar = true /\ refreed flags ShapePar = false
       | None =>
           if free_norm args
           then forall flags,
                  refreed flags NormPar = true /\ refreed flags ShapePar = false
           else forall flags k, refreed flags k = true
       end.
Proof.
  intros Hrun src refreed.
  apply run_fit_ok in Hrun
    as (t & o & w1 & tmpl & cfg & _ & _ & _ & _ & _ & _ & _ & Hlog).
  fold src in Hlog.
  exists ([GTAnalysis (os_path_join o "config.yaml") 3; gta_setup]
          ++ freeing_calls args). eexists. split; [|split; [|split; [|split]]].
  - rewrite Hlog, target_calls_protocol.
    repeat first [rewrite <- app_assoc | rewrite <- app_comm_cons].
    reflexivity.
  - pose proof (freeing_calls_configure args) as Hf.
    unfold diffuse_calls. each_call.
  - eexists. split; [|reflexivity].
    unfold target_protocol, free_pars_of.
    destruct (src_gamma args); [|destruct (free_norm args)]; reflexivity.
  - reflexivity.
  - subst refreed. unfold free_pars_of.
    destruct (src_gamma args); [|destruct (free_norm args)];
      first [intros flags; split; reflexivity | reflexivity].
Qed.

(** C8: the persisted configuration is the template with the five
    selection fields overwritten, the two data paths re-rooted in the
    data directory under their base names, and the catalog list set to
    the optional XML path followed by the optional ['3FGL']; every
    other field, and the set of sections, is that of the template. *)
Theorem config_merges_template args w w' :
  run_fit args w = (Ok tt, w') ->
  exists o t tmpl cfg ev sc evb scb,
    outfolder args = Some o
    /\ time_window args w = (Ok t, w)
    /\ default_yaml w = Template tmpl
    /\ fs_files w' !! os_path_join o "config.yaml" = Some (ConfigYaml cfg)
    /\ cfg_lookup tmpl "data" "evfile" = Some (VStr ev)
    /\ last (PyStr.split slash ev) = Some evb
    /\ cfg_lookup tmpl "data" "scfile" = Some (VStr sc)
    /\ last (PyStr.split slash sc) = Some scb
    /\ cfg_lookup cfg "selection" "emin" = Some (VNum (emin args))
    /\ cfg_lookup cfg "selection" "emax" = Some (VNum (emax args))
    /\ cfg_lookup cfg "selection" "tmin" = Some (VNum t.1)
    /\ cfg_lookup cfg "selection" "tmax" = Some (VNum t.2)
    /\ cfg_lookup cfg "selection" "target"
       = Some (VStr (PyStr.replace "_" " " (target_src args)))
    /\ cfg_lookup cfg "data" "evfile"
       = Some (VStr (os_path_join (data_path args) evb))
    /\ cfg_lookup cfg "data" "scfile"
       = Some (VStr (os_path_join (data_path args) scb))
    /\ cfg_lookup cfg "model" "catalogs"
       = Some (VList (match xml_path args with
                      | Some x => [VStr x]
                      | None => []
                      end
                      ++ (if use_3FGL args then [VStr "3FGL"] else [])))
    /\ (forall s k, (s, k) ∉ overridden ->
          cfg_lookup cfg s k = cfg_lookup tmpl s k)
    /\ dom cfg = dom tmpl.
Proof.
  intros Hrun.
  apply run_fit_ok in Hrun
    as (t & o & w1 & tmpl & cfg & Et & Ho & _ & Hy & Hm & _ & Hfiles & _).
  destruct Hm as (ev & sc & evb & scb & Hm).
  exists o, t, tmpl, cfg, ev, sc, evb, scb.
  split; [exact Ho|]. split; [exact Et|]. split; [exact Hy|].
  split; [rewrite Hfiles; apply persisted_config|]. exact Hm.
Qed.

Lemma replace_get old new s i :
  String.get i (PyStr.replace old new s)
  = (fun c : ascii => if Ascii.eqb c old then new else c) <$> String.get i s.
Proof.
  revert i. induction s as [|c s IH]; intros i; [reflexivity|].
  destruct i as [|i]; [reflexivity|]. cbn [PyStr.replace String.get].
  apply IH.
Qed.

Lemma replace_length old new s :
  String.length (PyStr.replace old new s) = String.length s.
Proof. induction s as [|c s IH]; cbn; congruence. Qed.

(** C10: the name under which the engine is addressed is the target
    name of the run arguments, character by character, with a space in
    the place of every underscore; it is the name in the target field of
    the configuration and in every call that names a source other than a
    neighbour to be freed (parameter setting, freeing of the target,
    bowtie and SED); with an output folder given, two target names that
    agree after the replacement give the same run, so the underscored
    form matters to the default folder name only. *)
Theorem target_name_with_spaces args w :
  let src := PyStr.replace "_" " " (target_src args) in
  (String.length src = String.length (target_src args)
   /\ forall i,
        String.get i src
        = (fun c : ascii => if Ascii.eqb c "_" then " "%char else c)
            <$> String.get i (target_src args))
  /\ (forall w', run_fit args w = (Ok tt, w') ->
       exists o cfg calls,
         fs_files w' !! os_path_join o "config.yaml" = Some (ConfigYaml cfg)
         /\ cfg_lookup cfg "selection" "target" = Some (VStr src)
         /\ engine_log w' = engine_log w ++ calls
         /\ Forall (addresses src
                      ("galdiff" :: "isodiff"
                       :: match free_sources args with
                          | Some keys => keys
                          | None => []
                          end)) calls
         /\ In (gta_bowtie src) calls
         /\ In (gta_free_source src None false) calls
         /\ In (gta_free_source src (free_pars_of args) true) calls
         /\ (forall g, src_gamma args = Some g ->
               In (gta_set_parameter src "Index" g) calls)
         /\ (no_sed args = false ->
               exists ofile bins,
                 last calls
                 = Some (gta_sed src ofile bins (free_pars_of args)
                           (free_radius args))))
  /\ (forall t1 t2,
        outfolder args <> None ->
        PyStr.replace "_" " " t1 = PyStr.replace "_" " " t2 ->
        run_fit (with_target t1 args) w = run_fit (with_target t2 args) w).
Proof.
  intros src. split; [|split].
  - split; [apply replace_length | intros i; apply replace_get].
  - intros w' Hrun.
    apply run_fit_ok in Hrun
      as (t & o & w1 & tmpl & cfg & _ & _ & _ & _ & Hm & _ & Hfiles & Hlog).
    fold src in Hm, Hfiles, Hlog.
    destruct Hm as (ev & sc & evb & scb & _ & _ & _ & _ & _ & _ & _ & _
                    & Htarget & _).
    exists o, cfg. eexists.
    split; [rewrite Hfiles; apply persisted_config|].
    split; [exact Htarget|]. split; [exact Hlog|].
    split; [|split; [|split; [|split; [|split]]]].
    + pose proof (freeing_calls_address args src) as Hf.
      unfold target_calls, diffuse_calls. each_call.
    + rewrite !in_app_iff. do 4 right. left. cbn. auto.
    + rewrite !in_app_iff. do 2 right. left. unfold target_calls.
      rewrite in_app_iff. right. cbn. auto.
    + rewrite !in_app_iff. do 2 right. left. unfold target_calls.
      rewrite in_app_iff. right. cbn. auto.
    + intros g Hg. rewrite !in_app_iff. do 2 right. left.
      unfold target_calls. rewrite Hg, in_app_iff. left. cbn. auto.
    + intros Hs. rewrite Hs. do 2 eexists.
      rewrite !app_assoc. apply last_snoc.
  - intros t1 t2 Ho Heq.
    destruct (outfolder args) as [o|] eqn:Eo; [|congruence].
    unfold run_fit, run_analysis, free_other_sources, time_window,
      default_basepath, create_config, configure_target.
    cbn [with_target target_src emin emax time_range data_path
         outfolder xml_path use_3FGL free_radius free_sources src_gamma
         free_norm free_diff retries no_sed].
    rewrite Eo, Heq. reflexivity.
Qed.

End Driver.

(** ** The Crab Nebula run, property by property *)

Lemma sed_bins_stop_short_crab :
  Crab.log10 100 == 2 /\ Crab.log10 100000 == 5
  /\ emin Crab.args = 100 /\ emax Crab.args = 100000
  /\ no_sed Crab.args = false
  /\ Crab.run Crab.args Crab.w0 = (Ok tt, Crab.final Crab.args)
  /\ exists bins,
       last (engine_log (Crab.final Crab.args))
       = Some (gta_sed "Crab Nebula" "sed_emin_100_emax_100000.fits" bins
                 None None)
       /\ Forall2 Qeq bins [2.0; 2.5; 3.0; 3.5; 4.0; 4.5]
       /\ ~ Exists (Qeq 5.0) bins.
Proof.
  assert (h1 : Crab.log10 100 == 2) by reflexivity.
  assert (h2 : Crab.log10 100000 == 5) by reflexivity.
  assert (h3 : Crab.run Crab.args Crab.w0 = (Ok tt, Crab.final Crab.args))
    by (vm_compute; reflexivity).
  repeat (split; [first [assumption | reflexivity]|]).
  exact (@sed_bins_stop_short Crab.host Crab.args Crab.w0
           (Crab.final Crab.args) h1 h2 eq_refl eq_refl eq_refl h3).
Defined.

Lemma default_folder_never_built_crab :
  outfolder Crab.args_default_folder = None
  /\ Crab.run Crab.args_default_folder Crab.w0
     = (Raise (ValueError "Unknown format code 'f' for object of type 'str'"),
        Crab.w0).
Proof.
  split; [reflexivity|].
  apply (@default_folder_never_built Crab.host Crab.args_default_folder Crab.w0
           eq_refl).
  discriminate.
Defined.

(** C2, as stated, fails: with no output folder and no time range over a
    data directory without event files, the run raises in the time window
    discovery, before the folder name is formatted. *)
Lemma default_folder_discovery_raises_first :
  outfolder Crab.args_discover_default = None
  /\ Crab.run Crab.args_discover_default Crab.w_empty
     = (Raise (ValueError "zero-size array to reduction operation minimum which has no identity"),
        Crab.w_empty)
  /\ (Crab.run Crab.args_discover_default Crab.w_empty).1
     <> Raise (ValueError "Unknown format code 'f' for object of type 'str'").
Proof.
  split; [reflexivity|]. split.
  - vm_compute. reflexivity.
  - vm_compute. discriminate.
Qed.

Lemma spacecraft_file_prepared_crab :
  ("spacecraft.fits" ∉ os_listdir Crab.w0)
  /\ length (sc_files Crab.w0) = 1%nat
  /\ exists f x w',
       sc_files Crab.w0 = [f] /\ data_dir Crab.w0 !! f = Some x
       /\ setup_data_files "/data/crab" Crab.w0 = (Ok tt, w')
       /\ data_dir w' !! "spacecraft.fits" = Some x
       /\ data_dir w' !! f = None.
Proof.
  assert (h1 : "spacecraft.fits" ∉ os_listdir Crab.w0)
    by (apply (bool_decide_unpack _); vm_compute; exact I).
  assert (h2 : length (sc_files Crab.w0) = 1%nat) by (vm_compute; reflexivity).
  split; [exact h1|]. split; [exact h2|].
  exact (proj1 (proj1 (@spacecraft_file_prepared Crab.host
                         "/data/crab" Crab.w0) h1) h2).
Defined.

Lemma explicit_range_converted_crab :
  time_range Crab.args = Some (55000, 55010)
  /\ Crab.run Crab.args Crab.w0 = (Ok tt, Crab.final Crab.args)
  /\ exists o cfg,
       outfolder Crab.args = Some o
       /\ fs_files (Crab.final Crab.args) !! os_path_join o "config.yaml"
          = Some (ConfigYaml cfg)
       /\ cfg_lookup cfg "selection" "tmin"
          = Some (VNum ((55000 - MJDREF) * 86400))
       /\ cfg_lookup cfg "selection" "tmax"
          = Some (VNum ((55010 - MJDREF) * 86400)).
Proof.
  assert (h : Crab.run Crab.args Crab.w0 = (Ok tt, Crab.final Crab.args))
    by (vm_compute; reflexivity).
  split; [reflexivity|]. split; [exact h|].
  exact (proj2 (proj2 (@explicit_range_converted Crab.host
                         Crab.args Crab.w0 (Crab.final Crab.args)
                         55000 55010 eq_refl h))).
Defined.

Lemma discovered_window_is_extremal_crab :
  time_range Crab.args_discover = None
  /\ ph_files Crab.w0 <> []
  /\ exists lo hi,
       time_window Crab.args_discover Crab.w0 = (Ok (lo, hi), Crab.w0)
       /\ (exists f, In f (ph_files Crab.w0)
                     /\ fits_header Crab.w0 f "TSTART" = Some lo)
       /\ (forall f x, In f (ph_files Crab.w0) ->
             fits_header Crab.w0 f "TSTART" = Some x -> lo <= x)
       /\ (exists f, In f (ph_files Crab.w0)
                     /\ fits_header Crab.w0 f "TSTOP" = Some hi)
       /\ (forall f x, In f (ph_files Crab.w0) ->
             fits_header Crab.w0 f "TSTOP" = Some x -> x <= hi).
Proof.
  assert (h1 : ph_files Crab.w0 <> []) by (vm_compute; discriminate).
  assert (h2 : forall f, In f (ph_files Crab.w0) ->
             is_Some (fits_header Crab.w0 f "TSTART")
             /\ is_Some (fits_header Crab.w0 f "TSTOP")).
  { assert (E : ph_files Crab.w0 = ["L1_PH00.fits"; "L1_PH01.fits"])
      by (vm_compute; reflexivity).
    rewrite E. intros f Hf.
    destruct Hf as [<-|[<-|[]]]; split; vm_compute; eauto. }
  split; [reflexivity|]. split; [exact h1|].
  exact (discovered_window_is_extremal Crab.args_discover Crab.w0
           eq_refl h1 h2).
Defined.

Lemma radius_overrides_source_list_crab :
  free_radius Crab.args_radius = Some 3
  /\ free_sources Crab.args_radius = Some ["IC 443"; "Geminga"]
  /\ Crab.run Crab.args_radius Crab.w0
     = Crab.run (with_free_sources None Crab.args_radius) Crab.w0.
Proof.
  split; [reflexivity|]. split; [reflexivity|].
  exact (proj1 (@radius_overrides_source_list Crab.host
                  Crab.args_radius Crab.w0 3 ["IC 443"; "Geminga"]
                  eq_refl eq_refl)).
Defined.

Lemma target_three_way_crab :
  Crab.run Crab.args Crab.w0 = (Ok tt, Crab.final Crab.args)
  /\ exists before after,
       engine_log (Crab.final Crab.args)
       = engine_log Crab.w0 ++ before
         ++ [gta_optimize;
             gta_free_source "Crab Nebula" None false;
             gta_free_source "Crab Nebula" None true]
         ++ after
       /\ Forall (fun c => configures c = false) (before ++ after)
       /\ forall flags k,
            free_source_flags None true (free_source_flags None false flags) k
            = true.
Proof.
  assert (h : Crab.run Crab.args Crab.w0 = (Ok tt, Crab.final Crab.args))
    by (vm_compute; reflexivity).
  split; [exact h|].
  destruct (@target_three_way Crab.host Crab.args Crab.w0
              (Crab.final Crab.args) h)
    as (before & after & Hlog & Hc & _ & _ & Hfree).
  exists before, after. split; [exact Hlog|]. split; [exact Hc|exact Hfree].
Defined.

(** C7, as stated, fails: with neither an index override nor the
    free-normalization flag, the parameters of the target are not left
    fixed.  The call that frees the target again carries [pars=None],
    and that frees every one of them, whatever they were before. *)
Lemma target_freed_after_optimize :
  src_gamma Crab.args = None /\ free_norm Crab.args = false
  /\ Crab.run Crab.args Crab.w0 = (Ok tt, Crab.final Crab.args)
  /\ engine_log (Crab.final Crab.args)
     = [GTAnalysis "/out/crab/config.yaml" 3; gta_setup; gta_optimize;
        gta_free_source "Crab Nebula" None false;
        gta_free_source "Crab Nebula" None true;
        gta_fit 5; gta_write_roi "llh_emin_100_emax_100000.npy";
        gta_bowtie "Crab Nebula";
        gta_sed "Crab Nebula" "sed_emin_100_emax_100000.fits"
          (@loge_bins Crab.host 100 100000) None None]
  /\ ~ (forall flags k,
          free_source_flags (free_pars_of Crab.args) true
            (free_source_flags None false flags) k = false).
Proof.
  split; [reflexivity|]. split; [reflexivity|].
  split; [vm_compute; reflexivity|]. split; [vm_compute; reflexivity|].
  intros H. specialize (H (fun _ => false) ShapePar). discriminate H.
Qed.

Lemma config_merges_template_crab :
  Crab.run Crab.args_radius Crab.w0 = (Ok tt, Crab.final Crab.args_radius)
  /\ exists cfg,
       fs_files (Crab.final Crab.args_radius) !! "/out/crab/config.yaml"
       = Some (ConfigYaml cfg)
       /\ cfg_lookup cfg "data" "evfile" = Some (VStr "/data/crab/events.txt")
       /\ cfg_lookup cfg "model" "catalogs"
          = Some (VList [VStr "/cat/extra.xml"; VStr "3FGL"])
       /\ cfg_lookup cfg "binning" "roiwidth" = Some (VNum 10)
       /\ dom cfg = dom Crab.template.
Proof.
  assert (h : Crab.run Crab.args_radius Crab.w0
              = (Ok tt, Crab.final Crab.args_radius))
    by (vm_compute; reflexivity).
  split; [exact h|].
  destruct (@config_merges_template Crab.host Crab.args_radius Crab.w0
              (Crab.final Crab.args_radius) h)
    as (o & t & tmpl & cfg & ev & sc & evb & scb & Ho & _ & Hy & Hf & Hev
        & Hevb & _ & _ & _ & _ & _ & _ & _ & Hev' & _ & Hcat & Hframe & Hdom).
  injection Ho as <-. injection Hy as <-.
  vm_compute in Hev. injection Hev as <-.
  vm_compute in Hevb. injection Hevb as <-.
  exists cfg. split; [exact Hf|]. split; [exact Hev'|]. split; [exact Hcat|].
  split; [|exact Hdom].
  rewrite Hframe; [vm_compute; reflexivity|].
  apply (bool_decide_unpack _). vm_compute. exact I.
Defined.

Lemma target_name_with_spaces_crab :
  outfolder Crab.args <> None
  /\ PyStr.replace "_" " " "Crab_Nebula" = PyStr.replace "_" " " "Crab Nebula"
  /\ Crab.run (with_target "Crab_Nebula" Crab.args) Crab.w0
     = Crab.run (with_target "Crab Nebula" Crab.args) Crab.w0
  /\ String.length (PyStr.replace "_" " " (target_src Crab.args)) = 11%nat
  /\ String.get 4 (PyStr.replace "_" " " (target_src Crab.args))
     = Some " "%char.
Proof.
  assert (h1 : outfolder Crab.args <> None) by discriminate.
  pose proof (@target_name_with_spaces Crab.host Crab.args Crab.w0)
    as ((Hlen & Hget) & _ & Hsame).
  split; [exact h1|]. split; [reflexivity|].
  split; [exact (Hsame "Crab_Nebula" "Crab Nebula" h1 eq_refl)|].
  split; [exact Hlen | exact (Hget 4%nat)].
Defined.

(** * Further properties *)

(** ** Time conversions *)

(** X1: converting a mission time to MJD and back gives the mission time
    again: [MJD_to_MET] and [MET_to_MJD] are inverse in both orders. *)
Theorem MJD_to_MET_MET_to_MJD (x : Q) : MJD_to_MET (MET_to_MJD x) == x.
Proof. unfold MET_to_MJD, MJD_to_MET. field. Qed.

Section Further.
Context {rt : Host}.

(** X2: a time range given in MJD yields a window that is not inverted:
    an ordered range gives an ordered window, and the window is strictly
    ordered only if the range is.  The conversion is monotone. *)
Theorem explicit_window_keeps_order args w (a b : Q) :
  time_range args = Some (a, b) ->
  exists lo hi,
    time_window args w = (Ok (lo, hi), w)
    /\ (a <= b -> lo <= hi)
    /\ (lo < hi -> a < b).
Proof.
  intros Hr. unfold time_window. rewrite Hr.
  exists (MJD_to_MET a), (MJD_to_MET b). split; [reflexivity|].
  unfold MJD_to_MET. set (r := MJDREF).
  split; intros; lra.
Qed.

(** ** Time Window Resolver, the failing side *)

Lemma fits_open_ok folder f w x w' :
  fits_open folder f w = (Ok x, w') ->
  data_dir w !! f = Some (FitsFile x) /\ w' = w.
Proof.
  unfold fits_open. destruct (data_dir w !! f) as [[hdus|c]|];
    now intros [= <- <-].
Qed.

Lemma hdu_header_ok x i key w v w' :
  hdu_header x i key w = (Ok v, w') ->
  x !! i ≫= (fun h => h !! key) = Some v /\ w' = w.
Proof.
  unfold hdu_header, throw, ret. destruct (x !! i) as [h|]; cbn;
    [destruct (h !! key)|]; now intros [= <- <-].
Qed.

Lemma scan_headers_inv folder w files :
  forall tmin tmax r w',
    scan_headers folder files tmin tmax w = (Ok r, w') ->
    forall f, In f files ->
      is_Some (fits_header w f "TSTART") /\ is_Some (fits_header w f "TSTOP").
Proof.
  induction files as [|g rest IH]; intros tmin tmax r w' Hs f Hf; [destruct Hf|].
  cbn [scan_headers] in Hs.
  bind_as Hs x w1 Eo. apply fits_open_ok in Eo as [Eo ->].
  bind_as Hs a w2 Ea. apply hdu_header_ok in Ea as [Ea ->].
  bind_as Hs b w3 Eb. apply hdu_header_ok in Eb as [Eb ->].
  destruct Hf as [<-|Hf].
  - unfold fits_header. rewrite Eo, Ea, Eb. split; eauto.
  - eapply IH; eassumption.
Qed.

(** X3: over a data directory without raw event files the discovery of
    the time window raises the [ValueError] of [np.min] on an empty
    list, and changes nothing. *)
Theorem no_event_files_no_window folder w :
  ph_files w = [] ->
  get_time_window folder w
  = (Raise (ValueError "zero-size array to reduction operation minimum which has no identity"),
     w).
Proof.
  intros He. unfold get_time_window. unfold bind at 1. cbn [gets].
  fold (ph_files w). rewrite He. reflexivity.
Qed.

Lemma get_time_window_outcome folder w r w' :
  get_time_window folder w = (r, w') ->
  w' = w
  /\ (forall t, r = Ok t ->
        ph_files w <> []
        /\ forall f, In f (ph_files w) ->
             is_Some (fits_header w f "TSTART")
             /\ is_Some (fits_header w f "TSTOP"))
  /\ (forall e, r = Raise e ->
        ph_files w = []
        \/ exists f, In f (ph_files w)
                     /\ (fits_header w f "TSTART" = None
                         \/ fits_header w f "TSTOP" = None)).
Proof.
  intros H.
  assert (w' = w)
    by (eapply reads_only_eq, H; apply reads_only_get_time_window).
  subst w'. split; [reflexivity|]. split.
  - intros t ->. unfold get_time_window in H.
    bind_as H files w1 E. injection E as <- <-. fold (ph_files w) in H.
    bind_as H s w2 Es.
    bind_as H lo w3 Elo. apply lift_ok in Elo as [Elo ->].
    split.
    + intros He. rewrite He in Es. injection Es as <- _. discriminate Elo.
    + eapply scan_headers_inv, Es.
  - intros e ->.
    destruct (ph_files w) as [|f0 l] eqn:Eph; [now left|]. right.
    destruct (decide (Forall (fun f => is_Some (fits_header w f "TSTART")
                                      /\ is_Some (fits_header w f "TSTOP"))
                        (f0 :: l))) as [Hall|Hnot].
    + exfalso. rewrite <- Eph in Hall.
      destruct (get_time_window_ok folder w) as (lo & hi & E & _).
      * rewrite Eph. discriminate.
      * intros f Hf. eapply Forall_forall in Hall; [exact Hall|].
        now apply list_elem_of_In.
      * rewrite E in H. discriminate.
    + apply not_Forall_Exists in Hnot; [|intros; apply _].
      apply Exists_exists in Hnot as (f & Hf & Hn).
      exists f. split; [now apply list_elem_of_In|].
      cbn in Hn.
      destruct (fits_header w f "TSTART") as [a|]; [|now left].
      destruct (fits_header w f "TSTOP") as [b|]; [|now right].
      exfalso. apply Hn. split; eauto.
Qed.

(** X4: the discovery of the time window returns only if there is a raw
    event file and the TSTART and TSTOP headers of every raw event file
    can be read; when it raises, there is no such file or the headers of
    one cannot be read; it never changes the world. *)
Theorem window_needs_every_header folder w r w' :
  get_time_window folder w = (r, w') ->
  w' = w
  /\ (forall t, r = Ok t ->
        ph_files w <> []
        /\ forall f, In f (ph_files w) ->
             is_Some (fits_header w f "TSTART")
             /\ is_Some (fits_header w f "TSTOP"))
  /\ (forall e, r = Raise e ->
        ph_files w = []
        \/ exists f, In f (ph_files w)
                     /\ (fits_header w f "TSTART" = None
                         \/ fits_header w f "TSTOP" = None)).
Proof. apply get_time_window_outcome. Qed.

(** X5: when every raw event file starts no later than it stops, the
    discovered window starts no later than it stops. *)
Theorem discovered_window_ordered folder w lo hi w' :
  get_time_window folder w = (Ok (lo, hi), w') ->
  (forall f a b, In f (ph_files w) ->
     fits_header w f "TSTART" = Some a ->
     fits_header w f "TSTOP" = Some b -> a <= b) ->
  lo <= hi.
Proof.
  intros H Hord.
  destruct (get_time_window_outcome _ _ _ _ H) as (-> & Hok & _).
  destruct (Hok _ eq_refl) as [Hne Hall].
  destruct (get_time_window_ok folder w Hne Hall)
    as (lo' & hi' & E & (f & Hf & Hlo) & _ & _ & Hhi).
  rewrite E in H. injection H as -> ->.
  destruct (proj2 (Hall f Hf)) as [b Hb].
  apply Qle_trans with b; [eapply Hord; eassumption|].
  eapply Hhi; eassumption.
Qed.

(** ** File Preparer, outcome by outcome *)

Lemma set_data_dir_same w : set_data_dir (data_dir w) w = w.
Proof. now destruct w. Qed.

Lemma setup_data_files_outcome folder w r w' :
  setup_data_files folder w = (r, w') ->
  ("spacecraft.fits" ∈ os_listdir w
   /\ r = Ok tt /\ w' = set_data_dir (events_dir folder w) w)
  \/ (("spacecraft.fits" ∉ os_listdir w)
      /\ exists f x,
           sc_files w = [f] /\ data_dir w !! f = Some x
           /\ f <> "events.txt" /\ f <> "spacecraft.fits"
           /\ r = Ok tt
           /\ w' = set_data_dir
                     (<["spacecraft.fits" := x]>
                        (delete f (events_dir folder w))) w)
  \/ (("spacecraft.fits" ∉ os_listdir w)
      /\ length (sc_files w) <> 1%nat
      /\ r = Raise (Exception "No Spacecraft File Available!")
      /\ w' = set_data_dir (events_dir folder w) w).
Proof.
  unfold setup_data_files. unfold bind at 1. cbn [gets].
  fold (sc_files w) (ph_files w). unfold events_dir.
  destruct (bool_decide ("spacecraft.fits" ∈ os_listdir w)) eqn:Esp.
  - apply bool_decide_eq_true in Esp. intros H. left.
    split; [exact Esp|].
    destruct (bool_decide ("events.txt" ∈ os_listdir w));
      injection H as <- <-; split; try reflexivity.
    now rewrite set_data_dir_same.
  - apply bool_decide_eq_false in Esp. intros H. right.
    destruct ((length (sc_files w) =? 1)%nat) eqn:Elen.
    + left. split; [exact Esp|].
      apply Nat.eqb_eq in Elen.
      destruct (sc_files w) as [|f [|]] eqn:Esc; try discriminate.
      destruct (In_sc_files w f) as [Hf Hc]; [rewrite Esc; now left|].
      destruct (proj1 (listdir_lookup w f) Hf) as [x Hx].
      assert (Hfe : f <> "events.txt") by (intros ->; discriminate Hc).
      assert (Hfs : f <> "spacecraft.fits") by (intros ->; discriminate Hc).
      exists f, x. split; [reflexivity|]. split; [exact Hx|].
      split; [exact Hfe|]. split; [exact Hfs|].
      revert H. cbn [lookup list_lookup].
      unfold bind, ret, write_data_file, modify, os_rename.
      destruct (bool_decide ("events.txt" ∈ os_listdir w));
        cbn [data_dir set_data_dir].
      * rewrite Hx. now intros [= <- <-].
      * rewrite lookup_insert_ne by congruence. rewrite Hx.
        now intros [= <- <-].
    + right. split; [exact Esp|]. apply Nat.eqb_neq in Elen.
      split; [exact Elen|].
      revert H. unfold bind, ret, write_data_file, modify, throw.
      destruct (bool_decide ("events.txt" ∈ os_listdir w));
        intros [= <- <-]; split; try reflexivity.
      now rewrite set_data_dir_same.
Qed.

Lemma events_dir_events folder w :
  events_dir folder w !! "events.txt"
  = if bool_decide ("events.txt" ∈ os_listdir w)
    then data_dir w !! "events.txt"
    else Some (PlainFile (PyStr.join PyStr.newline
                            (map (os_path_join folder) (ph_files w)))).
Proof.
  unfold events_dir. case_bool_decide; [reflexivity|apply lookup_insert_eq].
Qed.

Lemma events_dir_other folder w g :
  g <> "events.txt" -> events_dir folder w !! g = data_dir w !! g.
Proof.
  intros Hg. unfold events_dir. case_bool_decide; [reflexivity|].
  now rewrite lookup_insert_ne by congruence.
Qed.

Lemma events_dir_has_events folder w :
  is_Some (events_dir folder w !! "events.txt").
Proof.
  rewrite events_dir_events. case_bool_decide; [|eauto].
  now apply listdir_lookup.
Qed.


(** X7: preparing a directory that has been prepared does nothing: after
    a run of the preparer that returns, a second run returns and leaves
    the world as it is. *)
Theorem setup_data_files_idempotent folder w w' :
  setup_data_files folder w = (Ok tt, w') ->
  setup_data_files folder w' = (Ok tt, w').
Proof.
  intros H.
  assert (He : "events.txt" ∈ os_listdir w'
               /\ "spacecraft.fits" ∈ os_listdir w').
  { rewrite !listdir_lookup.
    apply setup_data_files_outcome in H
      as [(Hsp & _ & ->)|[(_ & f & x & _ & _ & Hfe & _ & _ & ->)|(_ & _ & E & _)]];
      [| |discriminate E]; cbn [data_dir set_data_dir]; split.
    - apply events_dir_has_events.
    - rewrite events_dir_other by discriminate. now apply listdir_lookup.
    - rewrite lookup_insert_ne by discriminate.
      rewrite lookup_delete_ne by congruence. apply events_dir_has_events.
    - rewrite lookup_insert_eq. eauto. }
  destruct He as [He Hs].
  unfold setup_data_files. unfold bind at 1. cbn [gets].
  rewrite (bool_decide_eq_true_2 _ He), (bool_decide_eq_true_2 _ Hs).
  reflexivity.
Qed.

(** X8: a directory that already holds [spacecraft.fits] is never
    refused, however many files carry the marker [SC], and none of its
    files is renamed: every file but [events.txt] stays as it is. *)
Theorem existing_spacecraft_file_kept folder w :
  "spacecraft.fits" ∈ os_listdir w ->
  exists w',
    setup_data_files folder w = (Ok tt, w')
    /\ forall g, g <> "events.txt" -> data_dir w' !! g = data_dir w !! g.
Proof.
  intros Hs.
  destruct (setup_data_files folder w) as [r w'] eqn:H. exists w'.
  apply setup_data_files_outcome in H
    as [(_ & -> & ->)|[(Hn & _)|(Hn & _)]]; try contradiction.
  split; [reflexivity|]. intros g Hg. cbn [data_dir set_data_dir].
  now apply events_dir_other.
Qed.

(** X9: whatever the outcome, the preparer touches no file other than
    [events.txt], [spacecraft.fits] and a file that carries the marker
    [SC]; and it touches neither the template, nor files outside the
    data directory, nor the engine. *)
Theorem setup_data_files_touches_little folder w r w' :
  setup_data_files folder w = (r, w') ->
  (forall g, g <> "events.txt" -> g <> "spacecraft.fits" ->
     PyStr.contains "SC" g = false ->
     data_dir w' !! g = data_dir w !! g)
  /\ default_yaml w' = default_yaml w
  /\ fs_dirs w' = fs_dirs w
  /\ fs_files w' = fs_files w
  /\ engine_log w' = engine_log w.
Proof.
  intros H. split; [|eapply setup_data_files_frame, H].
  intros g Hge Hgs Hsc.
  apply setup_data_files_outcome in H
    as [(_ & _ & ->)|[(_ & f & x & Esc & _ & _ & _ & _ & ->)|(_ & _ & _ & ->)]];
    cbn [data_dir set_data_dir]; try now apply events_dir_other.
  assert (g <> f).
  { intros ->. destruct (In_sc_files w f) as [_ Hc]; [rewrite Esc; now left|].
    congruence. }
  rewrite lookup_insert_ne by congruence.
  rewrite lookup_delete_ne by congruence. now apply events_dir_other.
Qed.

(** ** Paths *)

Lemma string_app_assoc (a b c : string) : (a +:+ b) +:+ c = a +:+ (b +:+ c).
Proof.
  induction a as [|x a IH]; [reflexivity|].
  change (String x ((a +:+ b) +:+ c) = String x (a +:+ (b +:+ c))).
  now rewrite IH.
Qed.

Lemma split_not_nil sep s : PyStr.split sep s <> [].
Proof.
  destruct s as [|c r]; cbn; [discriminate|].
  destruct (Ascii.eqb c sep); [discriminate|].
  destruct (PyStr.split sep r); discriminate.
Qed.

Lemma last_split_free sep s b :
  last (PyStr.split sep s) = Some b -> has_char sep b = false.
Proof.
  revert b. induction s as [|c r IH]; intros b; cbn [PyStr.split].
  - now intros [= <-].
  - destruct (Ascii.eqb c sep) eqn:Ec.
    + pose proof (split_not_nil sep r) as Hn.
      destruct (PyStr.split sep r) as [|h t]; [congruence|].
      rewrite last_cons_cons. apply IH.
    + destruct (PyStr.split sep r) as [|h [|h' t]].
      * intros [= <-]. cbn. now rewrite Ec.
      * intros [= <-]. cbn. rewrite Ec. now apply IH.
      * rewrite last_cons_cons. intros H. apply IH.
        now rewrite last_cons_cons.
Qed.

Lemma split_free sep b : has_char sep b = false -> PyStr.split sep b = [b].
Proof.
  induction b as [|c r IH]; [reflexivity|]. cbn.
  destruct (Ascii.eqb c sep); [discriminate|]. cbn.
  intros H. now rewrite (IH H).
Qed.

Lemma last_split_after_sep sep a b :
  last (PyStr.split sep (a +:+ String sep b)) = last (PyStr.split sep b).
Proof.
  induction a as [|c a IH].
  - change ("" +:+ String sep b) with (String sep b). cbn [PyStr.split].
    rewrite Ascii.eqb_refl.
    pose proof (split_not_nil sep b) as Hn.
    destruct (PyStr.split sep b); [congruence|]. apply last_cons_cons.
  - change (String c a +:+ String sep b) with (String c (a +:+ String sep b)).
    cbn [PyStr.split].
    pose proof (split_not_nil sep (a +:+ String sep b)) as Hn.
    assert (H2 : exists h h' t,
               PyStr.split sep (a +:+ String sep b) = h :: h' :: t).
    { clear IH Hn. induction a as [|d a IH].
      - change ("" +:+ String sep b) with (String sep b). cbn [PyStr.split].
        rewrite Ascii.eqb_refl.
        pose proof (split_not_nil sep b) as Hn.
        destruct (PyStr.split sep b) as [|h t]; [congruence|]. eauto.
      - change (String d a +:+ String sep b)
          with (String d (a +:+ String sep b)).
        cbn [PyStr.split]. destruct IH as (h & h' & t & ->).
        destruct (Ascii.eqb d sep); eauto. }
    destruct H2 as (h & h' & t & E). rewrite E in IH |- *.
    destruct (Ascii.eqb c sep); rewrite !last_cons_cons;
      rewrite last_cons_cons in IH; exact IH.
Qed.

Lemma endswith_char_inv a c :
  PyStr.endswith_char a c = true -> exists a0, a = a0 +:+ String c "".
Proof.
  induction a as [|d [|d' r] IH]; cbn.
  - discriminate.
  - intros H. apply Ascii.eqb_eq in H as ->. now exists "".
  - intros H. destruct (IH H) as [a0 E]. exists (String d a0).
    change (String d a0 +:+ String c "") with (String d (a0 +:+ String c "")).
    now rewrite <- E.
Qed.

Lemma startswith_free c b :
  has_char c b = false -> PyStr.startswith_char b c = false.
Proof.
  destruct b as [|d r]; [reflexivity|]. cbn.
  now destruct (Ascii.eqb d c).
Qed.

Lemma split_last_join d b :
  has_char slash b = false -> split_last (os_path_join d b) = Ok b.
Proof.
  intros Hb. unfold split_last, os_path_join.
  rewrite (startswith_free _ _ Hb).
  assert (Hlast : last (PyStr.split slash b) = Some b)
    by now rewrite (split_free _ _ Hb).
  destruct (String.eqb d "") eqn:Ed; cbn [orb].
  - apply String.eqb_eq in Ed as ->.
    change ("" +:+ b) with b. now rewrite Hlast.
  - destruct (PyStr.endswith_char d slash) eqn:Ee.
    + apply endswith_char_inv in Ee as [d0 ->].
      rewrite string_app_assoc.
      change (String slash "" +:+ b) with (String slash b).
      now rewrite last_split_after_sep, Hlast.
    + change ("/" +:+ b) with (String slash b).
      now rewrite last_split_after_sep, Hlast.
Qed.

(** X12: re-rooting a data path keeps its base name: the base name of
    the path that is written into the configuration is the base name of
    the template's path, so re-rooting a re-rooted path into the same
    directory changes nothing. *)
Theorem rerooted_path_keeps_base_name (d p b : string) :
  last (PyStr.split slash p) = Some b ->
  split_last (os_path_join d b) = Ok b
  /\ (forall b', split_last (os_path_join d b) = Ok b' ->
        os_path_join d b' = os_path_join d b).
Proof.
  intros H. apply last_split_free in H.
  pose proof (split_last_join d b H) as E. split; [exact E|].
  intros b' E'. rewrite E in E'. now injection E' as <-.
Qed.

(** ** SED binning in general *)

Lemma np_arange_lookup (a b s : Q) (i : nat) (e : Q) :
  np_arange a b s !! i = Some e <->
  (Z.of_nat i < Qceiling ((b - a) / s))%Z
  /\ e = a + inject_Z (Z.of_nat i) * s.
Proof.
  unfold np_arange.
  change (map ?f ?l) with (f <$> l).
  rewrite list_lookup_fmap. split.
  - intros H. destruct (seq 0 _ !! i) as [k|] eqn:E; [|discriminate].
    apply lookup_seq in E as [-> Hi]. cbn in H. injection H as <-.
    split; [lia | reflexivity].
  - intros [Hi ->].
    rewrite (proj2 (lookup_seq 0 _ i i)); [reflexivity|]. split; lia.
Qed.

Lemma np_arange_length (a b s : Q) :
  length (np_arange a b s) = Z.to_nat (Qceiling ((b - a) / s)).
Proof. unfold np_arange. now rewrite length_map, length_seq. Qed.

(** X10: for positive bounds whose logarithms are multiples of 0.5, as
    with bounds that are powers of ten, the computation of the SED bin
    edges returns, and the edges are [log10(emin)], [log10(emin) + 0.5],
    and so on up to [log10(emax) - 0.5]: there are
    [2 * (log10(emax) - log10(emin))] of them, all below [log10(emax)],
    which is never an edge. *)
Theorem loge_bins_below_emax (emin emax : Q) (ka kb : Z) :
  0 < emin -> 0 < emax ->
  np_log10 emin == inject_Z ka / 2 ->
  np_log10 emax == inject_Z kb / 2 ->
  (ka < kb)%Z ->
  exists bins,
    sed_bins emin emax = Ok bins
    /\ length bins = Z.to_nat (kb - ka)
    /\ (forall i e, bins !! i = Some e ->
          e == inject_Z (ka + Z.of_nat i) / 2 /\ e < np_log10 emax)
    /\ (exists e, last bins = Some e /\ e == np_log10 emax - 0.5).
Proof.
  intros Hlo Hhi Ea Eb Hk.
  exists (loge_bins emin emax). split; [now apply sed_bins_returns|].
  unfold loge_bins.
  set (a := np_log10 emin) in *. set (b := np_log10 emax) in *.
  assert (Ec : Qceiling ((b - a) / 0.5) = (kb - ka)%Z).
  { rewrite <- (Qceiling_Z (kb - ka)). apply Qceiling_comp.
    rewrite Ea, Eb. unfold Z.sub. rewrite inject_Z_plus, inject_Z_opp.
    field. }
  assert (Ei : forall i e,
             np_arange a b 0.5 !! i = Some e ->
             (Z.of_nat i < kb - ka)%Z
             /\ e == inject_Z (ka + Z.of_nat i) / 2).
  { intros i e Hi. apply np_arange_lookup in Hi as [Hi ->].
    rewrite Ec in Hi. split; [exact Hi|].
    rewrite Ea, inject_Z_plus. field. }
  split; [|split].
  - now rewrite np_arange_length, Ec.
  - intros i e Hi. destruct (Ei i e Hi) as [Hlt He]. split; [exact He|].
    rewrite He, Eb.
    assert (H : inject_Z (ka + Z.of_nat i) < inject_Z kb)
      by (rewrite <- Zlt_Qlt; lia).
    unfold Qdiv. apply Qmult_lt_compat_r; [reflexivity | exact H].
  - rewrite last_lookup, np_arange_length, Ec. eexists. split.
    + apply np_arange_lookup. split; [rewrite Ec; lia | reflexivity].
    + rewrite Ea, Eb.
      replace (Z.of_nat (Init.Nat.pred (Z.to_nat (kb - ka))))
        with (kb + - ka + -1)%Z by lia.
      rewrite !inject_Z_plus, inject_Z_opp. change (inject_Z (-1)) with (-1).
      field.
Qed.


(** ** The engine protocol, call by call *)

Lemma replay_app log cs1 cs2 :
  replay log (cs1 ++ cs2)
  = if (replay log cs1).2
    then ((replay log cs1).1 ++ (replay (log ++ (replay log cs1).1) cs2).1,
          (replay (log ++ (replay log cs1).1) cs2).2)
    else replay log cs1.
Proof.
  revert log. induction cs1 as [|c cs1 IH]; intros log; cbn [app replay].
  - cbn. rewrite app_nil_r. now destruct (replay log cs2).
  - destruct (engine_ok log c); [|reflexivity]. cbn [fst snd].
    rewrite IH. destruct ((replay (log ++ [c]) cs1).2) eqn:E.
    + cbn [fst snd app]. now rewrite <- app_assoc.
    + now rewrite E.
Qed.

Lemma replay_outcome log cs :
  ((replay log cs).2 = true /\ (replay log cs).1 = cs)
  \/ ((replay log cs).2 = false
      /\ exists pre c post,
           cs = pre ++ c :: post
           /\ (replay log cs).1 = pre ++ [c]
           /\ engine_ok (log ++ pre) c = false).
Proof.
  revert log. induction cs as [|c cs IH]; intros log; cbn [replay].
  - left. split; reflexivity.
  - destruct (engine_ok log c) eqn:Ec.
    + cbn [fst snd].
      destruct (IH (log ++ [c])) as [[E2 E1]|(E2 & pre & d & post & -> & E1 & Ed)].
      * left. now rewrite E2, E1.
      * right. split; [exact E2|]. exists (c :: pre), d, post.
        rewrite E1. rewrite <- app_assoc in Ed. repeat split. exact Ed.
    + right. split; [reflexivity|]. exists [], c, cs.
      rewrite app_nil_r. repeat split. exact Ec.
Qed.

Lemma replay_true log cs :
  (replay log cs).2 = true -> (replay log cs).1 = cs.
Proof.
  intros H. destruct (replay_outcome log cs) as [[_ E]|[E _]];
    [exact E | congruence].
Qed.

Lemma replay_all_ok log cs :
  (forall l c, engine_ok l c = true) -> replay log cs = (cs, true).
Proof.
  intros Hok. revert log. induction cs as [|c cs IH]; intros log; cbn [replay].
  - reflexivity.
  - now rewrite Hok, IH.
Qed.

Lemma issues_bind {A B} (m : M A) (k : A -> M B) cs1 cs2 a b :
  issues m cs1 a -> issues (k a) cs2 b -> issues (bind m k) (cs1 ++ cs2) b.
Proof.
  intros Hm Hk w. unfold bind. rewrite (Hm w), replay_app.
  destruct ((replay (engine_log w) cs1).2) eqn:E1;
    [|cbn [fst snd]; now rewrite ?E1].
  rewrite (Hk _). cbn [engine_log log_calls fst snd].
  now rewrite log_calls_app.
Qed.

Lemma issues_then_bind {A B} (m : M A) (k : A -> M B) cs1 cs2 a (K : M B) :
  issues m cs1 a -> issues_then (k a) cs2 K ->
  issues_then (bind m k) (cs1 ++ cs2) K.
Proof.
  intros Hm Hk w. unfold bind. rewrite (Hm w), replay_app.
  destruct ((replay (engine_log w) cs1).2) eqn:E1;
    [|cbn [fst snd]; now rewrite ?E1].
  rewrite (Hk _), (replay_true _ _ E1). cbn [engine_log log_calls fst snd].
  now rewrite !log_calls_app.
Qed.

Lemma issues_then_here {A} (K : M A) : issues_then K [] K.
Proof. intros w. cbn. now rewrite log_calls_nil. Qed.

Lemma issues_ret {A} (a : A) : issues (ret a) [] a.
Proof. intros w. cbn. now rewrite log_calls_nil. Qed.

Lemma issues_engine c : issues (engine c) [c] tt.
Proof.
  intros w. unfold engine. cbn [replay].
  destruct (engine_ok (engine_log w) c); reflexivity.
Qed.

Lemma format_artifact_name prefix suffix args w :
  format (emin_emax_fmt prefix suffix)
    [PInt (py_int (emin args)); PInt (py_int (emax args))] w
  = (Ok (artifact_name prefix suffix args), w).
Proof.
  unfold format, lift, artifact_name. cbn [py_format emin_emax_fmt format_value].
  now rewrite string_app_nil_r.
Qed.

Lemma issues_format prefix suffix args :
  issues (format (emin_emax_fmt prefix suffix)
            [PInt (py_int (emin args)); PInt (py_int (emax args))])
    [] (artifact_name prefix suffix args).
Proof.
  intros w. rewrite format_artifact_name. cbn. now rewrite log_calls_nil.
Qed.

Lemma issues_for_each (f : string -> engine_call) keys :
  issues (for_each keys (fun k => engine (f k))) (map f keys) tt.
Proof.
  induction keys as [|k keys IH]; cbn [for_each map].
  - apply issues_ret.
  - apply (issues_bind _ _ [f k] (map f keys) tt tt);
      [apply issues_engine | exact IH].
Qed.

Lemma issues_free_other_sources args :
  issues (free_other_sources args) (freeing_calls args) tt.
Proof.
  unfold free_other_sources, freeing_calls.
  destruct (free_radius args); [apply issues_engine|].
  destruct (free_sources args); [apply issues_for_each | apply issues_ret].
Qed.

Lemma issues_configure_target args src :
  issues (configure_target args src)
    (match src_gamma args with
     | Some g => [gta_set_parameter src "Index" g]
     | None => if free_norm args then [] else [gta_optimize]
     end)
    (free_pars_of args).
Proof.
  unfold configure_target, free_pars_of.
  destruct (src_gamma args) as [g|].
  - apply (issues_bind _ _ [_] [] tt); [apply issues_engine | apply issues_ret].
  - destruct (free_norm args); [apply issues_ret|].
    apply (issues_bind _ _ [_] [] tt); [apply issues_engine | apply issues_ret].
Qed.

Lemma issues_diffuse args :
  issues
    (if free_diff args then
       engine (gta_free_source "galdiff" (Some "norm") true) ;;
       engine (gta_free_source "isodiff" (Some "norm") true)
     else ret tt)
    (diffuse_calls args) tt.
Proof.
  unfold diffuse_calls. destruct (free_diff args); [|apply issues_ret].
  apply (issues_bind _ _ [_] [_] tt); apply issues_engine.
Qed.

Lemma issues_then_eq {A} (m : M A) cs cs' K :
  issues_then m cs K -> cs = cs' -> issues_then m cs' K.
Proof. now intros H <-. Qed.

(** ** A run, step by step *)

Lemma makedirs_outcome o w :
  (if os_path_exists o w then ret tt else os_makedirs o) w
  = (Ok tt, with_folder o w).
Proof. unfold with_folder. now destruct (os_path_exists o w). Qed.

Lemma with_folder_frame o w :
  data_dir (with_folder o w) = data_dir w
  /\ default_yaml (with_folder o w) = default_yaml w
  /\ fs_files (with_folder o w) = fs_files w
  /\ engine_log (with_folder o w) = engine_log w.
Proof. unfold with_folder. now destruct (os_path_exists o w). Qed.

(** Up to the configuration: what a run does once the time window is
    resolved, the output folder is given and the data files are
    prepared. *)
Lemma run_fit_to_config args w t o w1 :
  time_window args w = (Ok t, w) ->
  outfolder args = Some o ->
  setup_data_files (data_path args) w = (Ok tt, w1) ->
  run_fit args w
  = (create_config args (PyStr.replace "_" " " (target_src args)) t.1 t.2 o ;;
     run_analysis args (PyStr.replace "_" " " (target_src args)) o)
      (with_folder o w1).
Proof.
  intros Htw Ho Hsetup. unfold run_fit.
  rewrite (bind_step _ _ _ _ _ Htw), Ho.
  rewrite (bind_step (ret o) _ w o w eq_refl).
  rewrite (bind_step _ _ _ _ _ Hsetup).
  rewrite (bind_step (gets _) _ w1 _ w1 eq_refl).
  now rewrite (bind_step _ _ _ _ _ (makedirs_outcome o w1)).
Qed.

Lemma run_analysis_issues args o :
  issues_then
    (run_analysis args (PyStr.replace "_" " " (target_src args)) o)
    (fit_script args o) (after_bowtie args o).
Proof.
  unfold run_analysis. eapply issues_then_eq.
  - eapply issues_then_bind; [apply issues_engine|].
    eapply issues_then_bind; [apply issues_engine|].
    eapply issues_then_bind; [apply issues_free_other_sources|].
    eapply issues_then_bind; [apply issues_configure_target|]. cbv beta.
    eapply issues_then_bind; [apply issues_engine|].
    eapply issues_then_bind; [apply issues_engine|].
    eapply issues_then_bind; [apply issues_diffuse|].
    eapply issues_then_bind; [apply issues_engine|].
    eapply issues_then_bind; [apply issues_format|]. cbv beta.
    eapply issues_then_bind; [apply issues_engine|].
    eapply issues_then_bind; [apply issues_engine|].
    apply issues_then_here.
  - unfold fit_script, target_calls. cbn [app].
    rewrite <- ?app_assoc. reflexivity.
Qed.

(** The last stage, outcome by outcome. *)
Lemma after_bowtie_outcome args o w :
  o ∈ fs_dirs w ->
  let bow := os_path_join o (artifact_name "bowtie_emin_" ".npy" args) in
  let w4 := write_file bow
              (BowtieNpy (PyStr.replace "_" " " (target_src args))) w in
  (bow ∈ fs_dirs w /\ after_bowtie args o w = (Raise (IOError bow), w))
  \/ ((bow ∉ fs_dirs w)
      /\ ((no_sed args = true /\ after_bowtie args o w = (Ok tt, w4))
          \/ (no_sed args = false
              /\ ~ (0 < emin args /\ 0 < emax args)
              /\ exists msg,
                   after_bowtie args o w = (Raise (ValueError msg), w4))
          \/ (no_sed args = false
              /\ 0 < emin args /\ 0 < emax args
              /\ after_bowtie args o w
                 = (if engine_ok (engine_log w)
                         (sed_call args (loge_bins (emin args) (emax args)))
                    then Ok tt else Raise EngineError,
                    log_calls
                      [sed_call args (loge_bins (emin args) (emax args))]
                      w4)))).
Proof.
  intros Hdir bow w4. unfold after_bowtie.
  rewrite (bind_step _ _ _ _ _ (format_artifact_name _ _ args w)).
  unfold np_save. fold bow.
  destruct (decide (bow ∈ fs_dirs w)) as [Hin|Hout].
  { left. split; [exact Hin|]. unfold bind at 1.
    now rewrite (write_into_refused _ _ _ _ Hin). }
  right. split; [exact Hout|].
  rewrite (bind_step _ _ _ _ _ (write_into_returns _ _ _ _ Hdir Hout)).
  fold bow w4. destruct (no_sed args); [left; split; reflexivity | right].
  rewrite (bind_step _ _ _ _ _ (format_artifact_name _ _ args w4)).
  destruct (sed_bins (emin args) (emax args)) as [bins|e] eqn:Eb.
  - right. apply sed_bins_ok in Eb as (-> & Hlo & Hhi).
    split; [reflexivity|]. split; [exact Hlo|]. split; [exact Hhi|].
    unfold bind at 1, lift at 1. unfold engine, sed_call.
    cbn [engine_log w4 write_file].
    destruct (engine_ok _ _); reflexivity.
  - left. apply sed_bins_raise in Eb as (Hn & msg & ->).
    split; [reflexivity|]. split; [exact Hn|]. exists msg. reflexivity.
Qed.

(** ** Config Builder, forwards *)

Lemma raise_keeps_bind {A B} (m : M A) (k : A -> M B) :
  reads_only m -> (forall a, raise_keeps (k a)) -> raise_keeps (bind m k).
Proof.
  intros Hm Hk w e w' H.
  apply bind_raise in H as [H | (a & w1 & E & H)].
  - eapply reads_only_eq, H. exact Hm.
  - apply (reads_only_eq _ _ _ _ Hm) in E as ->. eapply Hk, H.
Qed.

Lemma reads_only_load_template : reads_only load_template.
Proof. intros w. unfold load_template. now destruct (default_yaml w). Qed.

Lemma create_config_raise_keeps args src tmin tmax path :
  raise_keeps (create_config args src tmin tmax path).
Proof.
  unfold create_config, format.
  apply raise_keeps_bind; [apply reads_only_load_template | intros c0].
  repeat (apply raise_keeps_bind; [apply reads_only_lift | intros]).
  apply raise_keeps_bind.
  { destruct (xml_path args); [|apply reads_only_ret].
    apply reads_only_bind; [apply reads_only_lift|].
    intros. apply reads_only_lift. }
  intros. apply raise_keeps_bind.
  { destruct (use_3FGL args); [apply reads_only_lift | apply reads_only_ret]. }
  intros c w e w' H. now apply write_into_raise in H as (_ & ->).
Qed.

Lemma cfg_set_returns (c : config) sec key v :
  is_Some (c !! sec) -> exists c', cfg_set c sec key v = Ok c'.
Proof. intros [s Hs]. unfold cfg_set. rewrite Hs. eauto. Qed.

Lemma cfg_lookup_get (c : config) sec key v :
  cfg_lookup c sec key = Some v -> cfg_get c sec key = Ok v.
Proof.
  unfold cfg_lookup, cfg_get. destruct (c !! sec) as [s|]; [|discriminate].
  cbn. now intros ->.
Qed.

Lemma cfg_lookup_section (c : config) sec key v :
  cfg_lookup c sec key = Some v -> is_Some (c !! sec).
Proof.
  unfold cfg_lookup. destruct (c !! sec) as [s|]; [eauto | discriminate].
Qed.

Lemma cfg_step_section (c c' : config) sec key v s :
  cfg_step c c' sec key v -> is_Some (c !! s) -> is_Some (c' !! s).
Proof.
  intros (_ & _ & Hd) Hs. apply elem_of_dom. rewrite Hd.
  now apply elem_of_dom.
Qed.

Lemma split_last_returns p : exists b, split_last p = Ok b.
Proof.
  unfold split_last. pose proof (split_not_nil slash p) as Hn.
  apply last_is_Some in Hn as [b ->]. eauto.
Qed.

Lemma cfg_append_returns (c : config) sec key l v :
  cfg_lookup c sec key = Some (VList l) ->
  exists c', cfg_append c sec key v = Ok c'.
Proof.
  intros H. unfold cfg_append. rewrite (cfg_lookup_get _ _ _ _ H).
  apply cfg_set_returns. eapply cfg_lookup_section, H.
Qed.

(** One pure step of a computation, taken forwards. *)
Lemma bind_lift {A B} (r : result A) (k : A -> M B) a w :
  r = Ok a -> bind (lift r) k w = k a w.
Proof. now intros ->. Qed.

Tactic Notation "set_forward" ident(c') ident(S) :=
  match goal with
  | |- context [lift (cfg_set ?c ?sec ?key ?v)] =>
      let E := fresh "E" in
      destruct (cfg_set_returns c sec key v) as [c' E];
      [ solve [eauto 12 using cfg_step_section]
      | rewrite (bind_lift _ _ _ _ E);
        pose proof (cfg_set_step _ _ _ _ _ E) as S; clear E ]
  end.

Lemma create_config_returns args src tmin tmax o w tmpl ev sc :
  o ∈ fs_dirs w ->
  os_path_join o "config.yaml" ∉ fs_dirs w ->
  default_yaml w = Template tmpl ->
  is_Some (tmpl !! "selection") ->
  is_Some (tmpl !! "model") ->
  cfg_lookup tmpl "data" "evfile" = Some (VStr ev) ->
  cfg_lookup tmpl "data" "scfile" = Some (VStr sc) ->
  exists cfg,
    create_config args src tmin tmax o w
    = (Ok tt, write_file (os_path_join o "config.yaml") (ConfigYaml cfg) w).
Proof.
  intros Hdir Hfree Hy Hsel Hmod Hev Hsc.
  pose proof (cfg_lookup_section _ _ _ _ Hev) as Hdat.
  unfold create_config.
  rewrite (bind_step load_template _ w tmpl w)
    by (unfold load_template; now rewrite Hy).
  set_forward c1 S1. set_forward c2 S2. set_forward c3 S3.
  set_forward c4 S4. set_forward c5 S5.
  assert (Hev5 : cfg_lookup c5 "data" "evfile" = Some (VStr ev)).
  { through S5. through S4. through S3. through S2. through S1. exact Hev. }
  rewrite (bind_lift _ _ _ _ (cfg_lookup_get _ _ _ _ Hev5)).
  rewrite (bind_lift (as_str (VStr ev)) _ ev _ eq_refl).
  destruct (split_last_returns ev) as [evb Eb].
  rewrite (bind_lift _ _ _ _ Eb).
  set_forward c6 S6.
  assert (Hsc6 : cfg_lookup c6 "data" "scfile" = Some (VStr sc)).
  { through S6. through S5. through S4. through S3. through S2. through S1.
    exact Hsc. }
  rewrite (bind_lift _ _ _ _ (cfg_lookup_get _ _ _ _ Hsc6)).
  rewrite (bind_lift (as_str (VStr sc)) _ sc _ eq_refl).
  destruct (split_last_returns sc) as [scb Ec].
  rewrite (bind_lift _ _ _ _ Ec).
  set_forward c7 S7. set_forward c8 S8.
  assert (X : exists c9,
             (match xml_path args with
              | Some x =>
                  s <- format [Field FDefault] [PStr x] ;;
                  lift (cfg_append c8 "model" "catalogs" (VStr s))
              | None => ret c8
              end) w = (Ok c9, w)
             /\ exists l, cfg_lookup c9 "model" "catalogs" = Some (VList l)).
  { destruct (xml_path args) as [x|].
    - destruct (cfg_append_returns c8 "model" "catalogs" [] (VStr (x +:+ "")))
        as [c9 E9]; [apply S8|].
      exists c9. split.
      + unfold format. rewrite (bind_lift _ _ (x +:+ "") _ eq_refl).
        unfold lift. now rewrite E9.
      + apply cfg_append_step in E9 as (l & _ & S9). eexists. apply S9.
    - exists c8. split; [reflexivity|]. eexists. apply S8. }
  destruct X as (c9 & E9 & l & L9).
  rewrite (bind_step _ _ _ _ _ E9).
  destruct (use_3FGL args).
  - destruct (cfg_append_returns c9 "model" "catalogs" l (VStr "3FGL") L9)
      as [c10 E10].
    rewrite (bind_lift _ _ _ _ E10). eexists.
    now apply write_into_returns.
  - rewrite (bind_step (ret c9) _ w c9 w eq_refl). eexists.
    now apply write_into_returns.
Qed.

(** ** Every outcome of a run *)

Lemma os_path_exists_same o w w1 :
  fs_dirs w1 = fs_dirs w -> fs_files w1 = fs_files w ->
  os_path_exists o w1 = os_path_exists o w.
Proof. intros Hd Hf. unfold os_path_exists. now rewrite Hd, Hf. Qed.

Lemma with_folder_dirs o w :
  o ∈ fs_dirs w \/ fs_files w !! o = None -> o ∈ fs_dirs (with_folder o w).
Proof.
  intros H. unfold with_folder, os_path_exists.
  destruct (decide (o ∈ fs_dirs w)) as [Hin|Hout].
  - now rewrite (bool_decide_eq_true_2 _ Hin).
  - destruct H as [H|H]; [contradiction|].
    rewrite (bool_decide_eq_false_2 _ Hout), H.
    rewrite bool_decide_eq_false_2 by (intros [x Hx]; discriminate).
    cbn. set_solver.
Qed.

(** A run ends before the engine is reached, with the files written so
    far as they were, or it writes the configuration into the output
    folder and goes on to the analysis. *)
Lemma run_fit_outcome args w r w' :
  run_fit args w = (r, w') ->
  (exists e, r = Raise e
             /\ engine_log w' = engine_log w
             /\ fs_files w' = fs_files w)
  \/ (exists t o w1 tmpl cfg,
        time_window args w = (Ok t, w)
        /\ outfolder args = Some o
        /\ setup_data_files (data_path args) w = (Ok tt, w1)
        /\ default_yaml w = Template tmpl
        /\ merged args (PyStr.replace "_" " " (target_src args)) t.1 t.2
             tmpl cfg
        /\ o ∈ fs_dirs (with_folder o w1)
        /\ run_analysis args (PyStr.replace "_" " " (target_src args)) o
             (write_file (os_path_join o "config.yaml") (ConfigYaml cfg)
                (with_folder o w1))
           = (r, w')).
Proof.
  intros H.
  destruct (time_window args w) as [[t|e] wa] eqn:Etw;
    pose proof (reads_only_eq _ _ _ _ (reads_only_time_window args) Etw);
    subst wa.
  2:{ left. exists e. unfold run_fit in H. unfold bind at 1 in H.
      rewrite Etw in H. injection H as <- <-. auto. }
  destruct (outfolder args) as [o|] eqn:Eo.
  2:{ left. unfold run_fit in H.
      rewrite (bind_step _ _ _ _ _ Etw), Eo in H.
      unfold bind at 1 in H. rewrite default_basepath_raises in H.
      injection H as <- <-. eauto. }
  destruct (setup_data_files (data_path args) w) as [[[]|e] w1] eqn:Es;
    destruct (setup_data_files_frame _ _ _ _ Es) as (Fy & Fd & Ff & Fl).
  2:{ left. exists e. unfold run_fit in H.
      rewrite (bind_step _ _ _ _ _ Etw), Eo in H.
      rewrite (bind_step (ret o) _ w o w eq_refl) in H.
      unfold bind at 1 in H. rewrite Es in H. injection H as <- <-. auto. }
  destruct (with_folder_frame o w1) as (Gd & Gy & Gf & Gl).
  rewrite (run_fit_to_config args w t o w1 Etw Eo Es) in H.
  destruct (create_config args (PyStr.replace "_" " " (target_src args))
              t.1 t.2 o (with_folder o w1))
    as [[[]|e] w3] eqn:Ec.
  - right. rewrite (bind_step _ _ _ _ _ Ec) in H.
    apply create_config_ok in Ec as (tmpl & cfg & Et & Hdir & -> & Hm).
    rewrite Gy, Fy in Et.
    exists t, o, w1, tmpl, cfg. repeat split; assumption.
  - left. exists e. unfold bind at 1 in H. rewrite Ec in H.
    injection H as <- <-.
    apply create_config_raise_keeps in Ec as ->.
    split; [reflexivity|]. split; congruence.
Qed.

(** The analysis, outcome by outcome: the engine refuses one of the
    calls up to the bowtie; or these calls return and the bowtie cannot
    be saved; or it is saved, and the run ends there, fails to compute
    the bin edges, or calls [sed]. *)
Lemma run_analysis_outcome args o w3 r w' :
  o ∈ fs_dirs w3 ->
  run_analysis args (PyStr.replace "_" " " (target_src args)) o w3 = (r, w') ->
  let bow := os_path_join o (artifact_name "bowtie_emin_" ".npy" args) in
  (r = Raise EngineError
   /\ exists pre c post,
        fit_script args o = pre ++ c :: post
        /\ engine_ok (engine_log w3 ++ pre) c = false
        /\ w' = log_calls (pre ++ [c]) w3)
  \/ (bow ∈ fs_dirs w3 /\ r = Raise (IOError bow)
      /\ w' = log_calls (fit_script args o) w3)
  \/ ((bow ∉ fs_dirs w3)
      /\ exists sed,
           w' = log_calls sed
                  (write_file bow
                     (BowtieNpy (PyStr.replace "_" " " (target_src args)))
                     (log_calls (fit_script args o) w3))
           /\ ((no_sed args = true /\ sed = [] /\ r = Ok tt)
               \/ (no_sed args = false
                   /\ ~ (0 < emin args /\ 0 < emax args)
                   /\ sed = [] /\ exists msg, r = Raise (ValueError msg))
               \/ (no_sed args = false
                   /\ 0 < emin args /\ 0 < emax args
                   /\ sed = [sed_call args
                               (loge_bins (emin args) (emax args))]
                   /\ r = if engine_ok (engine_log w3 ++ fit_script args o)
                                (sed_call args
                                   (loge_bins (emin args) (emax args)))
                          then Ok tt else Raise EngineError))).
Proof.
  intros Hdir H bow. rewrite (run_analysis_issues args o w3) in H.
  destruct (replay_outcome (engine_log w3) (fit_script args o))
    as [[E2 E1]|(E2 & pre & c & post & Es & E1 & Ec)]; rewrite E2 in H.
  - right.
    destruct (after_bowtie_outcome args o (log_calls (fit_script args o) w3)
                Hdir)
      as [(Hin & E)
         |(Hout & [(Hs & E)|[(Hs & Hn & msg & E)|(Hs & Hlo & Hhi & E)]])];
      fold bow in E; rewrite E in H; apply pair_equal_spec in H as [<- <-].
    + left. auto.
    + right. split; [exact Hout|]. exists [].
      split; [now rewrite log_calls_nil|]. auto.
    + right. split; [exact Hout|]. exists [].
      split; [now rewrite log_calls_nil|]. right. left. eauto.
    + right. split; [exact Hout|]. eexists.
      split; [reflexivity|]. right. right. auto.
  - left. rewrite E1 in H. apply pair_equal_spec in H as [<- <-].
    split; [reflexivity|]. exists pre, c, post. auto.
Qed.



(** ** When a run returns, and what it leaves behind *)

(** Checks a property of calls piece by piece along an appended log. *)
Ltac per_call :=
  repeat (apply Forall_app; split); try assumption;
  repeat match goal with
    | |- context [match ?x with _ => _ end] => destruct x
    end;
  repeat match goal with
    | |- Forall _ [] => constructor
    | |- Forall _ (_ :: _) => constructor
    end;
  cbn; auto 7.

Lemma setup_data_files_returns folder w :
  "spacecraft.fits" ∈ os_listdir w \/ length (sc_files w) = 1%nat ->
  exists w1, setup_data_files folder w = (Ok tt, w1).
Proof.
  intros Hc. destruct (setup_data_files folder w) as [r w1] eqn:H.
  exists w1.
  apply setup_data_files_outcome in H
    as [(_ & -> & _)|[(_ & f & x & _ & _ & _ & _ & -> & _)|(Hn & Hl & _)]];
    try reflexivity.
  destruct Hc; contradiction.
Qed.

Lemma with_folder_dirs_inv o w p :
  p ∈ fs_dirs (with_folder o w) -> p = o \/ p ∈ fs_dirs w.
Proof.
  unfold with_folder. destruct (os_path_exists o w); [now right|].
  cbn. set_solver.
Qed.

(** A file of a folder is not the folder. *)
Lemma file_of_folder o c rest :
  c <> slash -> os_path_join o (String c rest) <> o.
Proof.
  intros Hc. unfold os_path_join.
  assert (E : PyStr.startswith_char (String c rest) slash = false).
  { cbn. destruct (Ascii.eqb_spec c slash); [contradiction | reflexivity]. }
  rewrite E.
  destruct (String.eqb o "" || PyStr.endswith_char o slash)%bool;
    intros H; rewrite <- (string_app_nil_r o) in H at 2;
    apply String.app_inj in H; discriminate.
Qed.

Lemma prefix_refl (s : string) : String.prefix s s = true.
Proof.
  induction s as [|c s IH]; [reflexivity|]. cbn.
  destruct (ascii_dec c c); [exact IH | congruence].
Qed.



(** X17: a run that returns leaves the artifacts of a run under names
    made of [int(emin)] and [int(emax)]: the script itself has written
    [config.yaml] and the bowtie array into the output folder, which is
    a directory by then; it has asked the engine for the likelihood
    snapshot by [write_roi] and, unless the SED is suppressed, for the
    SED file by [sed], each under its bare file name; with the SED
    suppressed no [sed] call is made. *)
Theorem run_outputs args w w' :
  run_fit args w = (Ok tt, w') ->
  let src := PyStr.replace "_" " " (target_src args) in
  exists o cfg calls,
    outfolder args = Some o
    /\ o ∈ fs_dirs w'
    /\ fs_files w' !! os_path_join o "config.yaml" = Some (ConfigYaml cfg)
    /\ fs_files w' !! os_path_join o (artifact_name "bowtie_emin_" ".npy" args)
       = Some (BowtieNpy src)
    /\ engine_log w' = engine_log w ++ calls
    /\ In (gta_write_roi (artifact_name "llh_emin_" ".npy" args)) calls
    /\ (no_sed args = false ->
          exists bins,
            last calls
            = Some (gta_sed src (artifact_name "sed_emin_" ".fits" args)
                      bins (free_pars_of args) (free_radius args)))
    /\ (no_sed args = true ->
          Forall (fun c => match c with
                           | gta_sed _ _ _ _ _ => False
                           | _ => True
                           end) calls).
Proof.
  intros H src.
  destruct (run_fit_ok _ _ _ H)
    as (t0 & o0 & w10 & tmpl0 & cfg0 & _ & Ho0 & _ & _ & _ & _ & Hfiles & Hlog).
  fold src in Hfiles, Hlog.
  apply run_fit_outcome in H
    as [(e & E & _)|(t & o & w1 & tmpl & cfg & _ & Ho & Hs & _ & _ & Hdir & H)];
    [discriminate|].
  rewrite Ho in Ho0. injection Ho0 as <-.
  assert (Hd' : o ∈ fs_dirs w').
  { apply run_analysis_outcome in H
      as [(_ & pre & c & post & _ & _ & ->)
         |[(_ & _ & ->)|(_ & sed & -> & _)]];
      [| | |exact Hdir]; exact Hdir. }
  exists o, cfg0. eexists.
  split; [exact Ho|]. split; [exact Hd'|].
  split; [rewrite Hfiles; apply persisted_config|].
  split; [rewrite Hfiles; apply lookup_insert_eq|].
  split; [exact Hlog|]. split; [|split].
  - rewrite !in_app_iff. do 4 right. left. cbn. auto.
  - intros Hn. rewrite Hn. eexists. rewrite !app_assoc. apply last_snoc.
  - intros Hn. rewrite Hn.
    pose proof (Forall_nil (fun c : engine_call =>
                   match c with gta_sed _ _ _ _ _ => False | _ => True end)).
    unfold freeing_calls, target_calls, diffuse_calls. per_call.
    apply Forall_fmap, Forall_forall. intros; exact I.
Qed.

(** X18: without a radius, the neighbours are freed by name: one
    [free_source] call per entry of the list, in the order of the list,
    right after the setup and right before the target is configured; no
    call by radius is made. *)
Theorem sources_freed_by_name args w w' :
  free_radius args = None ->
  run_fit args w = (Ok tt, w') ->
  exists o rest,
    engine_log w'
    = engine_log w
      ++ [GTAnalysis (os_path_join o "config.yaml") 3; gta_setup]
      ++ match free_sources args with
         | Some keys => map (fun k => gta_free_source k None true) keys
         | None => []
         end
      ++ target_protocol args (PyStr.replace "_" " " (target_src args))
      ++ rest
    /\ Forall (fun c => match c with
                        | gta_free_sources _ _ _ => False
                        | _ => True
                        end) rest.
Proof.
  intros Hr Hrun.
  apply run_fit_ok in Hrun
    as (t & o & w1 & tmpl & cfg & _ & _ & _ & _ & _ & _ & _ & Hlog).
  unfold freeing_calls in Hlog. rewrite Hr in Hlog.
  assert (E : target_calls args (PyStr.replace "_" " " (target_src args))
              = target_protocol args (PyStr.replace "_" " " (target_src args))).
  { unfold target_calls, target_protocol, free_pars_of.
    destruct (src_gamma args); [|destruct (free_norm args)]; reflexivity. }
  rewrite E in Hlog. exists o. eexists. split; [exact Hlog|].
  unfold diffuse_calls. per_call.
Qed.

(** X19: the SED is computed last and under the free-parameter policy
    of the target: when it is not suppressed, the last call is [sed] on
    the target with the [free_pars] of the re-freeing call and the
    radius of the run arguments; when it is suppressed, no [sed] call is
    made and the last call is the bowtie. *)
Theorem sed_follows_target_policy args w w' :
  run_fit args w = (Ok tt, w') ->
  let src := PyStr.replace "_" " " (target_src args) in
  exists calls,
    engine_log w' = engine_log w ++ calls
    /\ In (gta_free_source src (free_pars_of args) true) calls
    /\ (no_sed args = false ->
          last calls
          = Some (gta_sed src (artifact_name "sed_emin_" ".fits" args)
                    (loge_bins (emin args) (emax args))
                    (free_pars_of args) (free_radius args)))
    /\ (no_sed args = true ->
          last calls = Some (gta_bowtie src)
          /\ Forall (fun c => match c with
                              | gta_sed _ _ _ _ _ => False
                              | _ => True
                              end) calls).
Proof.
  intros Hrun src.
  apply run_fit_ok in Hrun
    as (t & o & w1 & tmpl & cfg & _ & _ & _ & _ & _ & _ & _ & Hlog).
  fold src in Hlog. eexists. split; [exact Hlog|]. split; [|split].
  - rewrite !in_app_iff. do 2 right. left. unfold target_calls.
    rewrite in_app_iff. right. cbn. auto.
  - intros Hs. rewrite Hs. rewrite !app_assoc. apply last_snoc.
  - intros Hs. rewrite Hs. split.
    + rewrite app_nil_r.
      change [gta_fit (retries args);
              gta_write_roi (artifact_name "llh_emin_" ".npy" args);
              gta_bowtie src]
        with ([gta_fit (retries args);
               gta_write_roi (artifact_name "llh_emin_" ".npy" args)]
              ++ [gta_bowtie src]).
      rewrite !app_assoc. apply last_snoc.
    + pose proof (Forall_nil (fun c : engine_call =>
                     match c with gta_sed _ _ _ _ _ => False | _ => True end)).
      unfold freeing_calls, target_calls, diffuse_calls. per_call.
      apply Forall_fmap, Forall_forall. intros; exact I.
Qed.

End Further.

(** ** The further properties on concrete runs *)

Example fit_refused_run :
  (@run_fit Cases.refusing Crab.args Crab.w0).1 = Raise EngineError
  /\ engine_log (@run_fit Cases.refusing Crab.args Crab.w0).2
     = [GTAnalysis "/out/crab/config.yaml" 3; gta_setup; gta_optimize;
        gta_free_source "Crab Nebula" None false;
        gta_free_source "Crab Nebula" None true; gta_fit 5]
  /\ (map_to_list (fs_files (@run_fit Cases.refusing Crab.args Crab.w0).2)).*1
     = ["/out/crab/config.yaml"].
Proof. vm_compute. repeat split. Qed.

Lemma explicit_window_keeps_order_crab :
  time_range Crab.args = Some (55000, 55010)
  /\ 55000 <= 55010
  /\ exists lo hi,
       time_window Crab.args Crab.w0 = (Ok (lo, hi), Crab.w0)
       /\ lo <= hi.
Proof.
  assert (h : 55000 <= 55010) by discriminate.
  split; [reflexivity|]. split; [exact h|].
  destruct (explicit_window_keeps_order Crab.args Crab.w0 55000 55010 eq_refl)
    as (lo & hi & E & Hle & _).
  exists lo, hi. split; [exact E | exact (Hle h)].
Defined.

Lemma no_event_files_no_window_empty :
  ph_files Crab.w_empty = []
  /\ get_time_window "/data/empty" Crab.w_empty
     = (Raise (ValueError "zero-size array to reduction operation minimum which has no identity"),
        Crab.w_empty).
Proof.
  assert (h : ph_files Crab.w_empty = []) by (vm_compute; reflexivity).
  split; [exact h|].
  exact (no_event_files_no_window "/data/empty" Crab.w_empty h).
Defined.

Lemma window_needs_every_header_crab :
  get_time_window "/data/crab" Crab.w0
  = (Ok (239557417, 271123200), Crab.w0)
  /\ ph_files Crab.w0 <> []
  /\ forall f, In f (ph_files Crab.w0) ->
       is_Some (fits_header Crab.w0 f "TSTART")
       /\ is_Some (fits_header Crab.w0 f "TSTOP").
Proof.
  assert (h : get_time_window "/data/crab" Crab.w0
              = (Ok (239557417, 271123200), Crab.w0))
    by (vm_compute; reflexivity).
  split; [exact h|].
  exact (proj1 (proj2 (window_needs_every_header "/data/crab" Crab.w0 _ _ h))
           _ eq_refl).
Defined.

Lemma discovered_window_ordered_crab :
  get_time_window "/data/crab" Crab.w0
  = (Ok (239557417, 271123200), Crab.w0)
  /\ 239557417 <= 271123200.
Proof.
  assert (h : get_time_window "/data/crab" Crab.w0
              = (Ok (239557417, 271123200), Crab.w0))
    by (vm_compute; reflexivity).
  assert (E : ph_files Crab.w0 = ["L1_PH00.fits"; "L1_PH01.fits"])
    by (vm_compute; reflexivity).
  assert (a1 : fits_header Crab.w0 "L1_PH01.fits" "TSTART" = Some 255398400)
    by (vm_compute; reflexivity).
  assert (b1 : fits_header Crab.w0 "L1_PH01.fits" "TSTOP" = Some 271123200)
    by (vm_compute; reflexivity).
  assert (a0 : fits_header Crab.w0 "L1_PH00.fits" "TSTART" = Some 239557417)
    by (vm_compute; reflexivity).
  assert (b0 : fits_header Crab.w0 "L1_PH00.fits" "TSTOP" = Some 255398400)
    by (vm_compute; reflexivity).
  split; [exact h|].
  apply (discovered_window_ordered "/data/crab" Crab.w0 _ _ _ h).
  rewrite E. intros f a b [<-|[<-|[]]] Ha Hb.
  - rewrite a0 in Ha. rewrite b0 in Hb.
    injection Ha as <-. injection Hb as <-. discriminate.
  - rewrite a1 in Ha. rewrite b1 in Hb.
    injection Ha as <-. injection Hb as <-. discriminate.
Defined.


Lemma setup_data_files_idempotent_crab :
  setup_data_files "/data/crab" Crab.w0 = (Ok tt, Cases.prepared)
  /\ setup_data_files "/data/crab" Cases.prepared = (Ok tt, Cases.prepared).
Proof.
  assert (h : setup_data_files "/data/crab" Crab.w0 = (Ok tt, Cases.prepared))
    by (vm_compute; reflexivity).
  split; [exact h|].
  exact (setup_data_files_idempotent "/data/crab" Crab.w0 _ h).
Defined.

Lemma existing_spacecraft_file_kept_crab :
  ("spacecraft.fits" ∈ os_listdir Cases.prepared)
  /\ exists w',
       setup_data_files "/data/crab" Cases.prepared = (Ok tt, w')
       /\ forall g, g <> "events.txt" ->
            data_dir w' !! g = data_dir Cases.prepared !! g.
Proof.
  assert (h : "spacecraft.fits" ∈ os_listdir Cases.prepared)
    by (apply (bool_decide_unpack _); vm_compute; exact I).
  split; [exact h|].
  exact (existing_spacecraft_file_kept "/data/crab" Cases.prepared h).
Defined.

Lemma setup_data_files_touches_little_crab :
  setup_data_files "/data/crab" Crab.w0 = (Ok tt, Cases.prepared)
  /\ data_dir Cases.prepared !! "L1_PH00.fits"
     = data_dir Crab.w0 !! "L1_PH00.fits"
  /\ engine_log Cases.prepared = engine_log Crab.w0.
Proof.
  assert (h : setup_data_files "/data/crab" Crab.w0 = (Ok tt, Cases.prepared))
    by (vm_compute; reflexivity).
  split; [exact h|].
  destruct (setup_data_files_touches_little "/data/crab" Crab.w0 _ _ h)
    as (Hd & _ & _ & _ & Hl).
  split; [|exact Hl].
  apply Hd; [discriminate | discriminate | reflexivity].
Defined.

Lemma loge_bins_below_emax_crab :
  0 < 100 /\ 0 < 100000
  /\ @np_log10 Crab.host 100 == inject_Z 4 / 2
  /\ @np_log10 Crab.host 100000 == inject_Z 10 / 2
  /\ exists bins,
       @sed_bins Crab.host 100 100000 = Ok bins
       /\ length bins = 6%nat
       /\ (forall i e, bins !! i = Some e ->
             e == inject_Z (4 + Z.of_nat i) / 2
             /\ e < @np_log10 Crab.host 100000)
       /\ exists e, last bins = Some e
                    /\ e == @np_log10 Crab.host 100000 - 0.5.
Proof.
  assert (h1 : 0 < 100) by reflexivity.
  assert (h2 : 0 < 100000) by reflexivity.
  assert (h3 : @np_log10 Crab.host 100 == inject_Z 4 / 2) by reflexivity.
  assert (h4 : @np_log10 Crab.host 100000 == inject_Z 10 / 2) by reflexivity.
  assert (h5 : (4 < 10)%Z) by reflexivity.
  repeat (split; [assumption|]).
  exact (@loge_bins_below_emax Crab.host 100 100000 4 10 h1 h2 h3 h4 h5).
Defined.


Lemma rerooted_path_keeps_base_name_crab :
  last (PyStr.split slash "/old/place/events.txt") = Some "events.txt"
  /\ split_last (os_path_join "/data/crab" "events.txt") = Ok "events.txt".
Proof.
  split; [reflexivity|].
  exact (proj1 (rerooted_path_keeps_base_name "/data/crab"
                  "/old/place/events.txt" "events.txt" eq_refl)).
Defined.





Lemma run_outputs_crab :
  Crab.run Crab.args Crab.w0 = (Ok tt, Crab.final Crab.args)
  /\ exists o cfg calls,
       outfolder Crab.args = Some o
       /\ o ∈ fs_dirs (Crab.final Crab.args)
       /\ fs_files (Crab.final Crab.args) !! os_path_join o "config.yaml"
          = Some (ConfigYaml cfg)
       /\ fs_files (Crab.final Crab.args)
            !! os_path_join o (artifact_name "bowtie_emin_" ".npy" Crab.args)
          = Some (BowtieNpy "Crab Nebula")
       /\ engine_log (Crab.final Crab.args) = engine_log Crab.w0 ++ calls
       /\ In (gta_write_roi (artifact_name "llh_emin_" ".npy" Crab.args)) calls
       /\ (no_sed Crab.args = false ->
             exists bins,
               last calls
               = Some (gta_sed "Crab Nebula"
                         (artifact_name "sed_emin_" ".fits" Crab.args)
                         bins (free_pars_of Crab.args)
                         (free_radius Crab.args)))
       /\ (no_sed Crab.args = true ->
             Forall (fun c => match c with
                              | gta_sed _ _ _ _ _ => False
                              | _ => True
                              end) calls).
Proof.
  assert (h : Crab.run Crab.args Crab.w0 = (Ok tt, Crab.final Crab.args))
    by (vm_compute; reflexivity).
  split; [exact h|].
  exact (@run_outputs Crab.host Crab.args Crab.w0 _ h).
Defined.

Lemma sources_freed_by_name_crab :
  free_radius Cases.args_by_name = None
  /\ Crab.run Cases.args_by_name Crab.w0
     = (Ok tt, Crab.final Cases.args_by_name)
  /\ exists o rest,
       engine_log (Crab.final Cases.args_by_name)
       = engine_log Crab.w0
         ++ [GTAnalysis (os_path_join o "config.yaml") 3; gta_setup]
         ++ [gta_free_source "IC 443" None true;
             gta_free_source "Geminga" None true]
         ++ [gta_free_source "Crab Nebula" None false;
             gta_free_source "Crab Nebula" (Some "norm") true]
         ++ rest
       /\ Forall (fun c => match c with
                           | gta_free_sources _ _ _ => False
                           | _ => True
                           end) rest.
Proof.
  assert (h : Crab.run Cases.args_by_name Crab.w0
              = (Ok tt, Crab.final Cases.args_by_name))
    by (vm_compute; reflexivity).
  split; [reflexivity|]. split; [exact h|].
  exact (@sources_freed_by_name Crab.host Cases.args_by_name Crab.w0 _
           eq_refl h).
Defined.

Lemma sed_follows_target_policy_crab :
  Crab.run Crab.args Crab.w0 = (Ok tt, Crab.final Crab.args)
  /\ exists calls,
       engine_log (Crab.final Crab.args) = engine_log Crab.w0 ++ calls
       /\ In (gta_free_source "Crab Nebula" None true) calls
       /\ (no_sed Crab.args = false ->
             last calls
             = Some (gta_sed "Crab Nebula"
                       (artifact_name "sed_emin_" ".fits" Crab.args)
                       (@loge_bins Crab.host 100 100000) None None))
       /\ (no_sed Crab.args = true ->
             last calls = Some (gta_bowtie "Crab Nebula")
             /\ Forall (fun c => match c with
                                 | gta_sed _ _ _ _ _ => False
                                 | _ => True
                                 end) calls).
Proof.
  assert (h : Crab.run Crab.args Crab.w0 = (Ok tt, Crab.final Crab.args))
    by (vm_compute; reflexivity).
  split; [exact h|].
  exact (@sed_follows_target_policy Crab.host Crab.args Crab.w0 _ h).
Defined.
